(** * ncm-R: conversion of omnils lines into NCM matches

    A shallow embedding of [pythonx/omnils.py] (classes [Function], [Match]
    and [Matches]) and the properties of its completion entries.

    Python [str] values are modelled as [string]; a character stands for
    the code point of the same number.  Methods run in a small state and
    exception monad whose state is the object [self]; the dictionary
    [match] built by [Match.build] is a record whose optional fields are
    the keys that may be absent. *)

From Stdlib Require Import String Ascii List ZArith Lia Bool Arith.
From Stdlib Require Import DecimalString.
Import ListNotations.

Local Open Scope list_scope.
Local Open Scope string_scope.

(** ** Exceptions, and the state and exception monad *)

Inductive PyError : Type :=
| IndexError
| KeyError
| ValueError
| RecursionError.

Inductive result (A : Type) : Type :=
| Ok (a : A)
| Raise (e : PyError).

Arguments Ok {A} a.
Arguments Raise {A} e.

(** A computation over an object of type [S]: it returns or raises, and
    leaves the object in a possibly updated state either way. *)
Definition M (S A : Type) : Type := S -> result A * S.

Definition ret {S A : Type} (a : A) : M S A := fun s => (Ok a, s).

Definition bind {S A B : Type} (m : M S A) (k : A -> M S B) : M S B :=
  fun s =>
    match m s with
    | (Ok a, s') => k a s'
    | (Raise e, s') => (Raise e, s')
    end.

Definition raise {S A : Type} (e : PyError) : M S A := fun s => (Raise e, s).

Definition get {S : Type} : M S S := fun s => (Ok s, s).

Definition put {S : Type} (s' : S) : M S unit := fun _ => (Ok tt, s').

Definition modify {S : Type} (f : S -> S) : M S unit := fun s => (Ok tt, f s).

Notation "x <- m ;; k" := (bind m (fun x => k))
  (at level 61, m at next level, right associativity).
Notation "m ;;; k" := (bind m (fun _ => k))
  (at level 61, right associativity).

(** An exception raised by a callee that has no access to [self]. *)
Definition lift {S A : Type} (r : result A) : M S A := fun s => (r, s).

(** [for x in l: body(x)] where the body updates [self]. *)
Fixpoint for_each {S A : Type} (l : list A) (body : A -> M S unit) : M S unit :=
  match l with
  | [] => ret tt
  | x :: l' => body x ;;; for_each l' body
  end.

(** [for x in l: acc = body(x, acc)] where the body updates a local. *)
Fixpoint for_fold {S A B : Type} (l : list A) (acc : B)
         (body : A -> B -> M S B) : M S B :=
  match l with
  | [] => ret acc
  | x :: l' => acc' <- body x acc ;; for_fold l' acc' body
  end.

(** [m] returns [v] on [self] and leaves [self] as it was. *)
Definition returns {S A : Type} (m : M S A) (self : S) (v : A) : Prop :=
  m self = (Ok v, self).

(** [m] raises [e] on [self] and leaves [self] as it was. *)
Definition raises {S A : Type} (m : M S A) (self : S) (e : PyError) : Prop :=
  m self = (Raise e, self).

(** ** Python's string primitives *)

Module Py.

Definition tab : ascii := "009"%char.
Definition newline : ascii := "010"%char.
Definition x05 : ascii := "005"%char.
Definition x06 : ascii := "006"%char.
Definition x07 : ascii := "007"%char.
Definition x08 : ascii := "008"%char.
Definition dquote : ascii := "034"%char.

(** Truth value of a string: non-empty. *)
Definition truthy (s : string) : bool :=
  match s with
  | EmptyString => false
  | String _ _ => true
  end.

(** [str.isspace] on one character: the whitespace of [str.strip()]. *)
Definition is_space (c : ascii) : bool :=
  let n := nat_of_ascii c in
  (((9 <=? n) && (n <=? 13)) || ((28 <=? n) && (n <=? 32))
   || (n =? 133) || (n =? 160))%nat.

Fixpoint lstrip (s : string) : string :=
  match s with
  | EmptyString => EmptyString
  | String c r => if is_space c then lstrip r else s
  end.

Fixpoint rstrip (s : string) : string :=
  match s with
  | EmptyString => EmptyString
  | String c r =>
      match rstrip r with
      | EmptyString => if is_space c then EmptyString else String c EmptyString
      | r' => String c r'
      end
  end.

(** [s.strip()] *)
Definition strip (s : string) : string := rstrip (lstrip s).

(** [sub in s] *)
Fixpoint contains (sub s : string) : bool :=
  prefix sub s
  || match s with
     | EmptyString => false
     | String _ r => contains sub r
     end.

(** [s.split(sep)] and [re.split(sep, s)] for a one-character [sep]. *)
Fixpoint split (sep : ascii) (s : string) : list string :=
  match s with
  | EmptyString => [EmptyString]
  | String c r =>
      if Ascii.eqb c sep then EmptyString :: split sep r
      else match split sep r with
           | h :: t => String c h :: t
           | [] => [String c EmptyString]
           end
  end.

(** [s.replace(c, by)] for a one-character [c]. *)
Fixpoint replace (c : ascii) (by_ : string) (s : string) : string :=
  match s with
  | EmptyString => EmptyString
  | String a r =>
      if Ascii.eqb a c then by_ ++ replace c by_ r
      else String a (replace c by_ r)
  end.

Fixpoint take (n : nat) (s : string) : string :=
  match n, s with
  | S n', String c r => String c (take n' r)
  | _, _ => EmptyString
  end.

(** [s[0:stop]] and [s[:stop]]; a negative [stop] counts from the end. *)
Definition slice_to (s : string) (stop : Z) : string :=
  if (stop <? 0)%Z
  then take (Z.to_nat (Z.of_nat (String.length s) + stop)) s
  else take (Z.to_nat stop) s.

Fixpoint spaces (n : nat) : string :=
  match n with
  | O => EmptyString
  | S n' => String " " (spaces n')
  end.

(** [('{:' + str(width) + '} ').format(s)]: [s] left-aligned in [width]
    columns, never cut, and one space.  A width that is not positive is
    no valid format specification for a string.  This is [str.format] for
    the widths up to [max_format_width]; above [sys.maxsize] Python
    refuses the format string, which this definition does not show. *)
Definition format_col (width : Z) (s : string) : result string :=
  if (width <=? 0)%Z then Raise ValueError
  else Ok (s ++ spaces (Z.to_nat width - String.length s) ++ " ").

(** A width that [str.format] accepts on every platform: [sys.maxsize]
    is this number or more.  The memory that a padded string takes is
    no part of the model. *)
Definition max_format_width : Z := 2 ^ 31 - 1.

(** [str(n)] for a natural number. *)
Definition str (n : nat) : string := NilEmpty.string_of_uint (Nat.to_uint n).

(** [l[i]] *)
Definition index {A : Type} (l : list A) (i : nat) : result A :=
  match nth_error l i with
  | Some a => Ok a
  | None => Raise IndexError
  end.

(** [d[key]] for a key that may be absent. *)
Definition getitem {A : Type} (o : option A) : result A :=
  match o with
  | Some a => Ok a
  | None => Raise KeyError
  end.

(** [enumerate(l)] *)
Fixpoint enumerate_from {A : Type} (n : nat) (l : list A) : list (nat * A) :=
  match l with
  | [] => []
  | x :: l' => (n, x) :: enumerate_from (S n) l'
  end.

Definition enumerate {A : Type} (l : list A) : list (nat * A) :=
  enumerate_from 0 l.

(** *** The three regular expressions of the module *)

(** The characters up to the first newline: what [.*] can cover. *)
Fixpoint line_prefix (s : string) : string :=
  match s with
  | EmptyString => EmptyString
  | String c r =>
      if Ascii.eqb c newline then EmptyString else String c (line_prefix r)
  end.

(** The text before the last occurrence of [c], when there is one. *)
Fixpoint before_last (c : ascii) (s : string) : option string :=
  match s with
  | EmptyString => None
  | String a r =>
      match before_last c r with
      | Some t => Some (String a t)
      | None => if Ascii.eqb a c then Some EmptyString else None
      end
  end.

(** Group 1 of the title search of [Match.build] (a 0x08, any run of
    characters other than newline, as long as possible, and a 0x05):
    the leftmost 0x08 that is followed on its line by a 0x05, and the
    text up to the last such 0x05. *)
Fixpoint search_title (s : string) : option string :=
  match s with
  | EmptyString => None
  | String a r =>
      if Ascii.eqb a x08 then
        match before_last x05 (line_prefix r) with
        | Some t => Some t
        | None => search_title r
        end
      else search_title r
  end.

(** [s] is a quote, a text without newline, and a quote. *)
Definition quoted (s : string) : option string :=
  match s with
  | String a r =>
      if Ascii.eqb a dquote then
        match before_last dquote r with
        | Some t =>
            if (String.eqb r (t ++ String dquote EmptyString))
               && negb (contains (String newline EmptyString) t)
            then Some t else None
        | None => None
        end
      else None
  | EmptyString => None
  end.

(** Group 1 of the quote search of [Match._process_argument] (the whole
    string is a quote, a run of characters other than newline, and a
    quote); the end anchor also matches before a newline that ends the
    string. *)
Definition search_quotes (s : string) : option string :=
  match quoted s with
  | Some t => Some t
  | None =>
      match before_last newline s with
      | Some s' =>
          if String.eqb s (s' ++ String newline EmptyString)
          then quoted s' else None
      | None => None
      end
  end.

End Py.

(** ** class Function *)

Module Function.

(** The attributes of a [Function] object. *)
Record t : Type := mk {
  _word : string;
  _info : string;
  args : list string;
  snippet : string
}.

Definition set_args (a : list string) (self : t) : t :=
  mk (_word self) (_info self) a (snippet self).

Definition set_snippet (s : string) (self : t) : t :=
  mk (_word self) (_info self) (args self) s.

(** [self.snippet += s] *)
Definition add_snippet (s : string) : M t unit :=
  modify (fun self => set_snippet (snippet self ++ s) self).

Definition _get_args : M t unit :=
  self <- get ;;
  if negb (Py.truthy (_info self)) then ret tt
  else
    args <- (if Py.contains (String Py.x08 "") (_info self)
             then lift (Py.index (Py.split Py.x08 (_info self)) 0)
             else ret (_info self)) ;;
    let args := Py.split Py.tab args in
    let args := map (Py.replace Py.x07 " = ") args in
    modify (set_args args).

(** Arguments without default value. *)
Definition mandatory (args : list string) : list string :=
  filter (fun a => negb (Py.contains "=" a)) args.

(** The body of the loop over [enumerate(mand_args)]. *)
Definition snippet_step (item : nat * string) : M t unit :=
  let (numarg, arg) := item in
  if Py.contains arg "..." && (0 <? numarg)%nat then ret tt
  else add_snippet ("${" ++ Py.str (numarg + 1) ++ ":" ++ arg ++ "}, ").

Definition _make_snippet : M t unit :=
  self <- get ;;
  modify (set_snippet (_word self ++ "(")) ;;;
  a0 <- lift (Py.index (args self) 0) ;;
  if String.eqb a0 "NO_ARGS" then add_snippet ")"
  else
    let mand_args := mandatory (args self) in
    for_each (Py.enumerate mand_args) snippet_step ;;;
    (if (1 <=? List.length mand_args)%nat
     then modify (fun self => set_snippet (Py.slice_to (snippet self) (-2)) self)
     else add_snippet "$1") ;;;
    add_snippet ")".

(** [Function(word, info)]: the object after [__init__], or the
    exception that [__init__] lets through. *)
Definition __init__ (word info : string) : result t :=
  match (_get_args ;;; _make_snippet) (mk word info [] "") with
  | (Ok _, self) => Ok self
  | (Raise e, _) => Raise e
  end.

End Function.

(** ** The dictionary [match] of [Match.build] *)

Module Entry.

(** The keys [word], [struct] and [pkg] are always present; the others
    are present when their field is [Some]. *)
#[warnings="-register-all"]
Inductive t : Type := mk {
  word : string;
  struct : string;
  pkg : string;
  info : option string;
  title : option string;
  menu : option string;
  args : option (list t);
  snippet : option string
}.

Definition set_word (v : string) (m : t) : t :=
  mk v (struct m) (pkg m) (info m) (title m) (menu m) (args m) (snippet m).

Definition set_info (v : option string) (m : t) : t :=
  mk (word m) (struct m) (pkg m) v (title m) (menu m) (args m) (snippet m).

Definition set_title (v : option string) (m : t) : t :=
  mk (word m) (struct m) (pkg m) (info m) v (menu m) (args m) (snippet m).

Definition set_menu (v : string) (m : t) : t :=
  mk (word m) (struct m) (pkg m) (info m) (title m) (Some v) (args m) (snippet m).

Definition set_args (v : list t) (m : t) : t :=
  mk (word m) (struct m) (pkg m) (info m) (title m) (menu m) (Some v) (snippet m).

Definition set_snippet (v : string) (m : t) : t :=
  mk (word m) (struct m) (pkg m) (info m) (title m) (menu m) (args m) (Some v).

End Entry.

(** ** class Match *)

Module Match.

(** The keys of [self.len] and of [MIN_LEN]: col_nb 1 and 2. *)
Inductive Col : Type := Col1 | Col2.

(** A [Match] object: its dictionary [len]. *)
Record t : Type := mk {
  len_col1 : Z;
  len_col2 : Z
}.

Definition len (self : t) (column : Col) : Z :=
  match column with
  | Col1 => len_col1 self
  | Col2 => len_col2 self
  end.

Definition MIN_LEN (column : Col) : Z := 7.

Definition __init__ : t := mk 11 11.

(** The dictionary [settings] of [setup]: the value of each key that is
    present. *)
Definition Settings : Type := string -> option Z.

Definition setup (settings : Settings) : M t unit :=
  v1 <- lift (Py.getitem (settings "col1_len")) ;;
  modify (fun self => mk v1 (len_col2 self)) ;;;
  v2 <- lift (Py.getitem (settings "col2_len")) ;;
  modify (fun self => mk (len_col1 self) v2).

Definition _col (value : string) (col_nb : Col) (brackets : bool) : M t string :=
  self <- get ;;
  let column := col_nb in
  if (len self column <? MIN_LEN column)%Z then ret ""
  else if brackets
       then ret ("{" ++ Py.slice_to value (len self column - 3) ++ "}")
       else ret (Py.slice_to value (len self column - 1)).

Definition _menu (col1 col2 col3 : string) : M t string :=
  self <- get ;;
  if Py.truthy col1 && negb (Py.truthy col2) && negb (Py.truthy col3)
  then ret col1
  else
    let menu := "" in
    menu <- (if Py.truthy col1 && (MIN_LEN Col1 <=? len self Col1)%Z
             then s <- lift (Py.format_col (len self Col1 - 1) col1) ;;
                  ret (menu ++ s)
             else ret menu) ;;
    menu <- (if Py.truthy col2 && (MIN_LEN Col2 <=? len self Col2)%Z
             then s <- lift (Py.format_col (len self Col2 - 1) col2) ;;
                  ret (menu ++ s)
             else ret menu) ;;
    let menu := if Py.truthy col3 then menu ++ col3 else menu in
    ret (Py.strip menu).

(** The body of the loop of [_process_function] over [function.args];
    [build] is the method itself. *)
Definition add_arg (build : string -> string -> string -> string -> M t Entry.t)
           (arg : string) (match_ : Entry.t) : M t Entry.t :=
  if String.eqb arg "NO_ARGS" || String.eqb arg "..." then ret match_
  else
    l <- lift (Py.getitem (Entry.args match_)) ;;
    e <- build arg "argument" "" "" ;;
    ret (Entry.set_args (l ++ [e])%list match_).

Definition _process_function
           (build : string -> string -> string -> string -> M t Entry.t)
           (match_ : Entry.t) : M t Entry.t :=
  info <- lift (Py.getitem (Entry.info match_)) ;;
  function <- lift (Function.__init__ (Entry.word match_) info) ;;
  let match_ := Entry.set_args [] match_ in
  match_ <- for_fold (Function.args function) match_ (add_arg build) ;;
  ret (Entry.set_snippet (Function.snippet function) match_).

Definition _process_df (match_ : Entry.t) : M t Entry.t :=
  ret (Entry.set_snippet (Entry.word match_ ++ " %>%$1") match_).

Definition _process_package (match_ : Entry.t) : M t Entry.t :=
  let match_ := Entry.set_snippet (Entry.word match_ ++ "::$1") match_ in
  c1 <- _col "package" Col1 false ;;
  info <- lift (Py.getitem (Entry.info match_)) ;;
  m <- _menu c1 info "" ;;
  ret (Entry.set_menu m match_).

Definition _process_argument (match_ : Entry.t) : M t Entry.t :=
  let word_parts := map Py.strip (Py.split "=" (Entry.word match_)) in
  lhs <- lift (Py.index word_parts 0) ;;
  rhs <- (if (List.length word_parts =? 2)%nat
          then lift (Py.index word_parts 1)
          else ret "") ;;
  let match_ := Entry.set_word lhs match_ in
  let col2 := if Py.truthy rhs then "= " ++ rhs else "" in
  c1 <- _col "argument" Col1 false ;;
  m <- _menu c1 col2 "" ;;
  let match_ := Entry.set_menu m match_ in
  if Py.truthy rhs then
    match Py.search_quotes rhs with
    | Some inner =>
        ret (Entry.set_snippet
               (lhs ++ " = " ++ String Py.dquote ("${1:" ++ inner ++ "}"
                    ++ String Py.dquote ""))
               match_)
    | None => ret (Entry.set_snippet (lhs ++ " = ${1:" ++ rhs ++ "}") match_)
    end
  else ret (Entry.set_snippet (lhs ++ " = $1") match_).

Definition _process_variable (match_ : Entry.t) : M t Entry.t :=
  c1 <- _col "variable" Col1 false ;;
  m <- _menu c1 (Entry.struct match_) "" ;;
  ret (Entry.set_menu m match_).

(** [build] up to and including the dispatch on [struct]. *)
Definition kind_dispatch
           (build : string -> string -> string -> string -> M t Entry.t)
           (word struct pkg info : string) : M t Entry.t :=
  let match_ := Entry.mk word struct pkg (Some info) None None None None in
  i <- lift (Py.getitem (Entry.info match_)) ;;
  let match_ :=
    if Py.truthy i then
      match Py.search_title i with
      | Some g => Entry.set_title (Some (Py.strip g)) match_
      | None => match_
      end
    else match_ in
  let title := "" in
  let (title, match_) :=
    match Entry.title match_ with
    | Some v => (v, Entry.set_title None match_)
    | None => (title, match_)
    end in
  c1 <- _col (Entry.pkg match_) Col1 true ;;
  c2 <- _col (Entry.struct match_) Col2 false ;;
  m <- _menu c1 c2 title ;;
  let match_ := Entry.set_menu m match_ in
  if String.eqb struct "function" then _process_function build match_
  else if String.eqb struct "data.frame" || String.eqb struct "tbl_df"
       then _process_df match_
  else if String.eqb struct "package" then _process_package match_
  else if String.eqb struct "argument" then _process_argument match_
  else ret match_.

(** The body of [build], with the method itself as [build]. *)
Definition build_body
           (build : string -> string -> string -> string -> M t Entry.t)
           (word struct pkg info : string) : M t Entry.t :=
  match_ <- kind_dispatch build word struct pkg info ;;
  match_ <- (if Py.contains "$" word then _process_variable match_
             else ret match_) ;;
  _ <- lift (Py.getitem (Entry.info match_)) ;;
  ret (Entry.set_info None match_).

(** [build] nested at most [depth] calls deep. *)
Fixpoint build_depth (depth : nat)
  : string -> string -> string -> string -> M t Entry.t :=
  match depth with
  | O => fun _ _ _ _ => raise RecursionError
  | S d => build_body (build_depth d)
  end.

(** [build]: the call for a function calls [build] for its arguments,
    whose [struct] is [argument], and those call it no further. *)
Definition build : string -> string -> string -> string -> M t Entry.t :=
  build_depth 2.

End Match.

(** ** class Matches *)

Module Matches.

(** A [Matches] object holds one [Match] object and nothing else: its
    methods run on that object. *)
Definition t : Type := Match.t.

Definition __init__ : t := Match.__init__.

Definition setup (settings : Match.Settings) : M t unit :=
  Match.setup settings.

Definition from_omnils (lines : list string) : M t (list Entry.t) :=
  for_fold lines [] (fun line matches =>
    let parts := Py.split Py.x06 line in
    if (5 <=? List.length parts)%nat then
      p0 <- lift (Py.index parts 0) ;;
      p1 <- lift (Py.index parts 1) ;;
      p3 <- lift (Py.index parts 3) ;;
      p4 <- lift (Py.index parts 4) ;;
      e <- Match.build p0 p1 p3 p4 ;;
      ret (matches ++ [e])%list
    else ret matches).

Definition from_pkg_desc (lines : list string) : M t (list Entry.t) :=
  for_fold lines [] (fun line matches =>
    let parts := Py.split Py.tab line in
    if (2 <=? List.length parts)%nat then
      p0 <- lift (Py.index parts 0) ;;
      p1 <- lift (Py.index parts 1) ;;
      e <- Match.build p0 "package" "" p1 ;;
      ret (matches ++ [e])%list
    else ret matches).

End Matches.

(** ** Closed forms

    What the methods compute, written without the monad.  The lemmas of
    the next part prove each of them equal to the method it describes. *)

Module Value.

Import Match.

(** The text before the first occurrence of [c]; all of [s] when there
    is none. *)
Fixpoint before_first (c : ascii) (s : string) : string :=
  match s with
  | EmptyString => EmptyString
  | String a r =>
      if Ascii.eqb a c then EmptyString else String a (before_first c r)
  end.

Fixpoint count (c : ascii) (s : string) : nat :=
  match s with
  | EmptyString => 0
  | String a r => (if Ascii.eqb a c then 1 else 0) + count c r
  end.

(** [function.args] for a non-empty [info]. *)
Definition args_of (info : string) : list string :=
  map (Py.replace Py.x07 " = ") (Py.split Py.tab (before_first Py.x08 info)).

Definition placeholder (item : nat * string) : string :=
  "${" ++ Py.str (fst item + 1) ++ ":" ++ snd item ++ "}".

(** The test of the loop of [_make_snippet] that passes over an item of
    [enumerate(mand_args)]. *)
Definition passed_over (item : nat * string) : bool :=
  Py.contains (snd item) "..." && (0 <? fst item)%nat.

(** The mandatory arguments that the loop does not pass over, with their
    index in [mand_args]. *)
Definition kept (mand_args : list string) : list (nat * string) :=
  filter (fun item => negb (passed_over item)) (Py.enumerate mand_args).

(** What the loop of [_make_snippet] appends to [self.snippet]. *)
Definition pieces (items : list (nat * string)) : string :=
  String.concat "" (map (fun item => placeholder item ++ ", ") items).

(** [function.snippet] for a non-empty [function.args]. *)
Definition snippet_of (word : string) (args : list string) : string :=
  if String.eqb (hd "" args) "NO_ARGS" then word ++ "()"
  else
    match Function.mandatory args with
    | [] => word ++ "($1)"
    | mand_args =>
        word ++ "(" ++ String.concat ", " (map placeholder (kept mand_args)) ++ ")"
    end.

(** The value of [_col]. *)
Definition col_value (self : t) (value : string) (col_nb : Col)
           (brackets : bool) : string :=
  if (len self col_nb <? MIN_LEN col_nb)%Z then ""
  else if brackets then "{" ++ Py.slice_to value (len self col_nb - 3) ++ "}"
  else Py.slice_to value (len self col_nb - 1).

(** A column is laid out when its text is non-empty and its width is at
    least the minimum. *)
Definition shown (self : t) (column : Col) (text : string) : bool :=
  Py.truthy text && (MIN_LEN column <=? len self column)%Z.

(** A column as [_menu] lays it out: padded to its width less one, and
    a space. *)
Definition cell (self : t) (column : Col) (text : string) : string :=
  if shown self column text
  then text ++ Py.spaces (Z.to_nat (len self column - 1) - String.length text) ++ " "
  else "".

(** The value of [_menu]. *)
Definition menu_value (self : t) (col1 col2 col3 : string) : string :=
  if Py.truthy col1 && negb (Py.truthy col2) && negb (Py.truthy col3)
  then col1
  else Py.strip (cell self Col1 col1 ++ cell self Col2 col2 ++ col3).

(** The title that [build] takes from [info]. *)
Definition title_of (info : string) : string :=
  if Py.truthy info then
    match Py.search_title info with
    | Some g => Py.strip g
    | None => ""
    end
  else "".

(** The two sides of an argument, as [_process_argument] splits it. *)
Definition arg_lhs (word : string) : string :=
  Py.strip (before_first "=" word).

Definition arg_rhs (word : string) : string :=
  match Py.split "=" word with
  | [_; r] => Py.strip r
  | _ => ""
  end.

Definition argument_snippet (word : string) : string :=
  let lhs := arg_lhs word in
  let rhs := arg_rhs word in
  if Py.truthy rhs then
    match Py.search_quotes rhs with
    | Some inner =>
        lhs ++ " = " ++ String Py.dquote ("${1:" ++ inner ++ "}"
            ++ String Py.dquote "")
    | None => lhs ++ " = ${1:" ++ rhs ++ "}"
    end
  else lhs ++ " = $1".

(** The three arguments of the call of [_menu] whose value the kind
    dispatch leaves under the key [menu]. *)
Definition kind_columns (self : t) (word struct pkg info : string)
  : string * string * string :=
  if String.eqb struct "package"
  then (col_value self "package" Col1 false, info, "")
  else if String.eqb struct "argument"
  then (col_value self "argument" Col1 false,
        (if Py.truthy (arg_rhs word) then "= " ++ arg_rhs word else ""), "")
  else (col_value self pkg Col1 true, col_value self struct Col2 false,
        title_of info).

(** The same for the whole of [build]. *)
Definition menu_columns (self : t) (word struct pkg info : string)
  : string * string * string :=
  if Py.contains "$" word
  then (col_value self "variable" Col1 false, struct, "")
  else kind_columns self word struct pkg info.

Definition menu_of (self : t) (cols : string * string * string) : string :=
  let '(c1, c2, c3) := cols in menu_value self c1 c2 c3.

Definition word_value (word struct : string) : string :=
  if String.eqb struct "argument" then arg_lhs word else word.

Definition snippet_value (word struct info : string) : option string :=
  if String.eqb struct "function" then Some (snippet_of word (args_of info))
  else if String.eqb struct "data.frame" || String.eqb struct "tbl_df"
  then Some (word ++ " %>%$1")
  else if String.eqb struct "package" then Some (word ++ "::$1")
  else if String.eqb struct "argument" then Some (argument_snippet word)
  else None.

(** The dictionary after the kind dispatch, given its key [args]. *)
Definition dispatched (self : t) (word struct pkg info : string)
           (args : option (list Entry.t)) : Entry.t :=
  Entry.mk (word_value word struct) struct pkg (Some info) None
           (Some (menu_of self (kind_columns self word struct pkg info)))
           args (snippet_value word struct info).

(** The dictionary that [build] returns, given its key [args]. *)
Definition built (self : t) (word struct pkg info : string)
           (args : option (list Entry.t)) : Entry.t :=
  Entry.mk (word_value word struct) struct pkg None None
           (Some (menu_of self (menu_columns self word struct pkg info)))
           args (snippet_value word struct info).

(** The entry of one argument of a function. *)
Definition argument_entry (self : t) (arg : string) : Entry.t :=
  built self arg "argument" "" "" None.

(** The recursive calls of [build] that [_process_function] makes return
    the entries of the arguments. *)
Definition builds_arguments
           (build : string -> string -> string -> string -> M Match.t Entry.t)
           (self : Match.t) : Prop :=
  forall arg, returns (build arg "argument" "" "") self (argument_entry self arg).

(** The arguments of a function that get an entry. *)
Definition has_entry (arg : string) : bool :=
  negb (String.eqb arg "NO_ARGS" || String.eqb arg "...").

Definition args_value (self : t) (struct info : string)
  : option (list Entry.t) :=
  if String.eqb struct "function"
  then Some (map (argument_entry self) (filter has_entry (args_of info)))
  else None.

(** The only call of [build] that raises. *)
Definition fails (struct info : string) : bool :=
  String.eqb struct "function" && negb (Py.truthy info).

Definition dispatch_result (self : t) (word struct pkg info : string)
  : result Entry.t :=
  if fails struct info then Raise IndexError
  else Ok (dispatched self word struct pkg info (args_value self struct info)).

Definition build_result (self : t) (word struct pkg info : string)
  : result Entry.t :=
  if fails struct info then Raise IndexError
  else Ok (built self word struct pkg info (args_value self struct info)).

End Value.

(** ** The specification's own words

    Definitions that follow the text of the specification where it
    departs from the code, to be compared with the code's. *)

Module Spec.

Import Value.

(** The specification's argument tokens that get a sub-entry: all but
    [NO_ARGS] and but the occurrences of [...] after the first. *)
Fixpoint spec_arg_tokens (seen_dots : bool) (args : list string) : list string :=
  match args with
  | [] => []
  | a :: r =>
      if String.eqb a "NO_ARGS" then spec_arg_tokens seen_dots r
      else if String.eqb a "..."
      then if seen_dots then spec_arg_tokens true r
           else a :: spec_arg_tokens true r
      else a :: spec_arg_tokens seen_dots r
  end.

(** The specification's mandatory tokens that get a placeholder: all but
    the occurrences of [...] after the first. *)
Fixpoint spec_kept_from (seen_dots : bool) (items : list (nat * string))
  : list (nat * string) :=
  match items with
  | [] => []
  | item :: r =>
      if String.eqb (snd item) "..."
      then if seen_dots then spec_kept_from true r
           else item :: spec_kept_from true r
      else item :: spec_kept_from seen_dots r
  end.

(** The snippet of section 4.1 of the specification. *)
Definition spec_snippet (word : string) (args : list string) : string :=
  if String.eqb (hd "" args) "NO_ARGS" then word ++ "()"
  else
    match Function.mandatory args with
    | [] => word ++ "($1)"
    | mand_args =>
        word ++ "("
        ++ String.concat ", "
             (map placeholder (spec_kept_from false (Py.enumerate mand_args)))
        ++ ")"
    end.

(** The widths of the two columns are widths that [str.format]
    accepts: the range of widths that the model of [_menu] covers. *)
Definition formattable (self : Match.t) : Prop :=
  (Match.len self Match.Col1 - 1 <= Py.max_format_width)%Z
  /\ (Match.len self Match.Col2 - 1 <= Py.max_format_width)%Z.

(** The text that column 2 of the menu stands for, before any cut. *)
Definition col2_field (word struct info : string) : string :=
  if Py.contains "$" word then struct
  else if String.eqb struct "package" then info
  else if String.eqb struct "argument"
  then (if Py.truthy (arg_rhs word) then "= " ++ arg_rhs word else "")
  else struct.

(** The menu of [build] is the base menu: the kind dispatch and the
    test for a dollar leave it as it is. *)
Definition base_menu (word struct : string) : bool :=
  negb (Py.contains "$" word) && negb (String.eqb struct "package")
  && negb (String.eqb struct "argument").

(** A column text within the budget of its column: empty, or of a
    column at least as wide as the minimum and no longer than the width
    less one. *)
Definition fits (self : Match.t) (column : Match.Col) (text : string) : Prop :=
  text = ""
  \/ ((Match.MIN_LEN column <= Match.len self column)%Z
      /\ (Z.of_nat (String.length text) <= Match.len self column - 1)%Z).

(** The width that a column takes in the menu. *)
Definition room (self : Match.t) (column : Match.Col) (text : string) : Z :=
  if shown self column text then Match.len self column else 0%Z.

(** The fields of line [line] of an omnils file, when there are five. *)
Definition qualifies (line : string) : bool :=
  (5 <=? List.length (Py.split Py.x06 line))%nat.

Definition field (n : nat) (line : string) : string :=
  nth n (Py.split Py.x06 line) "".

(** The call of [build] for a line raises. *)
Definition line_fails (line : string) : bool :=
  fails (field 1 line) (field 4 line).

(** The entry of a line with five fields. *)
Definition line_entry (self : Match.t) (line : string) : Entry.t :=
  built self (field 0 line) (field 1 line) (field 3 line) (field 4 line)
        (args_value self (field 1 line) (field 4 line)).

(** The same for a line of a package description file, of two fields. *)
Definition pkg_qualifies (line : string) : bool :=
  (2 <=? List.length (Py.split Py.tab line))%nat.

Definition pkg_line_entry (self : Match.t) (line : string) : Entry.t :=
  built self (nth 0 (Py.split Py.tab line) "") "package" ""
        (nth 1 (Py.split Py.tab line) "") None.

End Spec.

(** ** Facts about the string primitives *)

Section StringFacts.

Import Py Value.

Lemma append_nil_r (s : string) : s ++ "" = s.
Proof. induction s as [|c s IH]; simpl; [reflexivity | now rewrite IH]. Qed.

Lemma append_assoc (s1 s2 s3 : string) : (s1 ++ s2) ++ s3 = s1 ++ (s2 ++ s3).
Proof. induction s1 as [|c s1 IH]; simpl; [reflexivity | now rewrite IH]. Qed.

Lemma length_append (s1 s2 : string) :
  String.length (s1 ++ s2) = String.length s1 + String.length s2.
Proof. induction s1 as [|c s1 IH]; simpl; [reflexivity | now rewrite IH]. Qed.

Lemma length_spaces (n : nat) : String.length (spaces n) = n.
Proof. induction n as [|n IH]; simpl; [reflexivity | now rewrite IH]. Qed.

Lemma truthy_false (s : string) : truthy s = false <-> s = "".
Proof. destruct s; simpl; split; intros H; try reflexivity; discriminate. Qed.

Lemma truthy_true (s : string) : truthy s = true <-> s <> "".
Proof.
  destruct s; simpl; split; intros H; try reflexivity; try discriminate.
  now contradiction H.
Qed.

Lemma take_length_le (n : nat) (s : string) : String.length (take n s) <= n.
Proof.
  revert s; induction n as [|n IH]; intros [|c s]; simpl; try lia.
  specialize (IH s); lia.
Qed.

Lemma take_app_exact (s t : string) : take (String.length s) (s ++ t) = s.
Proof.
  induction s as [|c s IH]; simpl.
  - now destruct t.
  - now rewrite IH.
Qed.

Lemma slice_to_length (s : string) (stop : Z) :
  (0 <= stop)%Z -> (Z.of_nat (String.length (slice_to s stop)) <= stop)%Z.
Proof.
  intros H. unfold slice_to.
  destruct (stop <? 0)%Z eqn:E; [lia|].
  pose proof (take_length_le (Z.to_nat stop) s). lia.
Qed.

(** [(s + ', ')[:-2]] is [s]. *)
Lemma slice_to_drop2 (s : string) : slice_to (s ++ ", ") (-2) = s.
Proof.
  unfold slice_to. simpl (_ <? _)%Z. cbv iota.
  rewrite length_append. simpl String.length.
  replace (Z.to_nat (Z.of_nat (String.length s + 2) + -2)) with (String.length s) by lia.
  apply take_app_exact.
Qed.

Lemma split_cons (c : ascii) (s : string) :
  exists t, split c s = before_first c s :: t.
Proof.
  induction s as [|a s [t IH]]; simpl.
  - now exists [].
  - destruct (Ascii.eqb a c).
    + now eexists.
    + rewrite IH. now eexists.
Qed.

Lemma split_length (c : ascii) (s : string) :
  List.length (split c s) = S (count c s).
Proof.
  induction s as [|a s IH]; simpl; [reflexivity|].
  destruct (Ascii.eqb a c); simpl.
  - now rewrite IH.
  - destruct (split c s) eqn:E; simpl in *; [discriminate | exact IH].
Qed.

Lemma lstrip_length (s : string) : String.length (lstrip s) <= String.length s.
Proof.
  induction s as [|c s IH]; simpl; [lia|].
  destruct (is_space c); simpl; lia.
Qed.

Lemma rstrip_length (s : string) : String.length (rstrip s) <= String.length s.
Proof.
  induction s as [|c s IH]; simpl; [lia|].
  destruct (rstrip s); [destruct (is_space c)|]; simpl in *; lia.
Qed.

Lemma strip_length (s : string) : String.length (strip s) <= String.length s.
Proof.
  unfold strip. pose proof (rstrip_length (lstrip s)).
  pose proof (lstrip_length s). lia.
Qed.

Lemma prefix_cons (a b : ascii) (s1 s2 : string) :
  prefix (String a s1) (String b s2) = Ascii.eqb a b && prefix s1 s2.
Proof.
  cbn [prefix]. destruct (ascii_dec a b) as [->|n].
  - now rewrite Ascii.eqb_refl.
  - apply Ascii.eqb_neq in n. now rewrite n.
Qed.

Lemma prefix_nil (s : string) : prefix "" s = true.
Proof. now destruct s. Qed.

Lemma prefix_app (a s : string) :
  prefix a s = true -> exists t, s = a ++ t.
Proof.
  revert s; induction a as [|c a IH]; intros s H.
  - now exists s.
  - destruct s as [|b s]; [discriminate|].
    rewrite prefix_cons in H. apply andb_prop in H as [H1 H2].
    apply Ascii.eqb_eq in H1 as ->. destruct (IH _ H2) as [t ->].
    now exists t.
Qed.

Lemma contains_char_cons (c a : ascii) (s : string) :
  contains (String c "") (String a s) = Ascii.eqb c a || contains (String c "") s.
Proof.
  cbn [contains]. rewrite prefix_cons, prefix_nil, andb_true_r. reflexivity.
Qed.

(** [arg in '...'] is a test for a substring, not for equality. *)
Lemma contains_dots (a : string) :
  contains a "..." = true <-> a = "" \/ a = "." \/ a = ".." \/ a = "...".
Proof.
  split.
  - cbn [contains]. intros H.
    repeat (apply orb_prop in H as [H|H]); try discriminate;
      apply prefix_app in H as [t H];
      repeat (destruct a as [|? a];
              [auto | cbn in H; first [discriminate H | injection H as <- H]]).
  - intros [-> | [-> | [-> | ->]]]; reflexivity.
Qed.

End StringFacts.

(** ** The monad *)

Section MonadFacts.

Context {S : Type}.

Lemma bind_returns {A B : Type} (m : M S A) (k : A -> M S B) (self : S) (v : A) :
  returns m self v -> bind m k self = k v self.
Proof. unfold returns, bind. now intros ->. Qed.

Lemma bind_raises {A B : Type} (m : M S A) (k : A -> M S B) (self : S) (e : PyError) :
  raises m self e -> bind m k self = (Raise e, self).
Proof. unfold raises, bind. now intros ->. Qed.

Lemma bind_bind {A B C : Type} (m : M S A) (f : A -> M S B) (g : B -> M S C) (s : S) :
  bind (bind m f) g s = bind m (fun x => bind (f x) g) s.
Proof. unfold bind. destruct (m s) as [[a|e] s']; reflexivity. Qed.

End MonadFacts.

(** ** class Function: what [__init__] computes *)

Section FunctionFacts.

Import Py Value Function.

Lemma before_first_absent (c : ascii) (s : string) :
  contains (String c "") s = false -> before_first c s = s.
Proof.
  induction s as [|a s IH]; [reflexivity|].
  rewrite contains_char_cons. intros H. apply orb_false_elim in H as [H1 H2].
  simpl. rewrite Ascii.eqb_sym, H1. now rewrite IH.
Qed.

Lemma get_args_run (f : Function.t) :
  truthy (_info f) = true ->
  _get_args f = (Ok tt, set_args (args_of (_info f)) f).
Proof.
  intros H. unfold _get_args, bind, get, modify, lift, ret. rewrite H. simpl negb. cbv iota.
  unfold args_of.
  destruct (contains (String x08 "") (_info f)) eqn:E.
  - destruct (split_cons x08 (_info f)) as [t ->]. reflexivity.
  - now rewrite (before_first_absent _ _ E).
Qed.

Lemma get_args_skip (f : Function.t) :
  truthy (_info f) = false -> _get_args f = (Ok tt, f).
Proof.
  intros H. unfold _get_args, bind, get, ret. now rewrite H.
Qed.

Lemma placeholder_piece (n : nat) (a : string) :
  "${" ++ str (n + 1) ++ ":" ++ a ++ "}, " = placeholder (n, a) ++ ", ".
Proof.
  unfold placeholder. cbn [fst snd]. now rewrite !append_assoc.
Qed.

Lemma snippet_loop (items : list (nat * string)) (f : Function.t) :
  for_each items snippet_step f
  = (Ok tt,
     set_snippet (snippet f
                  ++ pieces (filter (fun item => negb (passed_over item)) items)) f).
Proof.
  revert f; induction items as [|[n a] items IH]; intros f.
  - cbn. rewrite append_nil_r. now destruct f.
  - cbn [for_each filter]. unfold passed_over at 1. cbn [fst snd].
    unfold bind. unfold snippet_step at 1.
    destruct (contains a "..." && (0 <? n)%nat); cbn [negb].
    + cbn [ret]. apply IH.
    + unfold add_snippet, modify. rewrite IH. cbn [snippet set_snippet _word _info args].
      unfold pieces. cbn [map String.concat].
      rewrite placeholder_piece, !append_assoc.
      destruct (map _ (filter _ items)); cbn [String.concat];
        rewrite ?append_nil_r; reflexivity.
Qed.

Lemma pieces_join (items : list (nat * string)) :
  items <> [] ->
  pieces items = String.concat ", " (map placeholder items) ++ ", ".
Proof.
  unfold pieces. induction items as [|x items IH]; [congruence|]. intros _.
  destruct items as [|y items].
  - reflexivity.
  - cbn [map String.concat] in *. cbn [append] in *.
    rewrite IH by discriminate. now rewrite !append_assoc.
Qed.

Lemma kept_nonempty (a : string) (l : list string) : kept (a :: l) <> [].
Proof.
  unfold kept, enumerate. cbn [enumerate_from filter].
  unfold passed_over at 1. cbn [fst snd Nat.ltb Nat.leb].
  rewrite andb_false_r. discriminate.
Qed.

Lemma make_snippet_run (f : Function.t) :
  args f <> [] ->
  _make_snippet f = (Ok tt, set_snippet (snippet_of (_word f) (args f)) f).
Proof.
  intros H. destruct f as [w i a s]. cbn [args _word] in *.
  destruct a as [|a0 a]; [congruence|]. clear H.
  unfold _make_snippet, snippet_of, bind, get, modify, lift, index.
  cbn [nth_error hd args _word _info snippet set_snippet].
  destruct (String.eqb a0 "NO_ARGS") eqn:E.
  - unfold add_snippet, modify. cbn [args _word _info snippet set_snippet].
    now rewrite append_assoc.
  - rewrite snippet_loop. cbn [args _word _info snippet set_snippet].
    fold (kept (mandatory (a0 :: a))).
    destruct (mandatory (a0 :: a)) as [|m0 ms] eqn:Em.
    + cbn. unfold add_snippet, modify. cbn. rewrite !append_assoc. reflexivity.
    + cbn [List.length Nat.leb]. unfold add_snippet, modify.
      cbn [args _word _info snippet set_snippet].
      rewrite pieces_join by apply kept_nonempty.
      rewrite <- !append_assoc. rewrite slice_to_drop2.
      rewrite !append_assoc. reflexivity.
Qed.

Lemma make_snippet_raises (f : Function.t) :
  args f = [] ->
  _make_snippet f = (Raise IndexError, set_snippet (_word f ++ "(") f).
Proof.
  intros H. unfold _make_snippet, bind, get, modify, lift, index.
  now rewrite H.
Qed.

Lemma args_of_nonempty (info : string) : args_of info <> [].
Proof.
  unfold args_of. destruct (split_cons tab (before_first x08 info)) as [t ->].
  discriminate.
Qed.

(** [Function(word, info)] raises for an empty [info] and for no other. *)
Lemma init_run (word info : string) :
  Function.__init__ word info
  = if truthy info
    then Ok (Function.mk word info (args_of info) (snippet_of word (args_of info)))
    else Raise IndexError.
Proof.
  unfold Function.__init__, bind.
  destruct (truthy info) eqn:E.
  - rewrite get_args_run by exact E.
    rewrite make_snippet_run by (cbn; apply args_of_nonempty).
    reflexivity.
  - rewrite get_args_skip by exact E.
    rewrite make_snippet_raises by reflexivity. reflexivity.
Qed.

End FunctionFacts.

(** ** class Match: what the methods compute *)

Import Py Value Match.

Lemma col_run (self : Match.t) (value : string) (col_nb : Col) (brackets : bool) :
  returns (_col value col_nb brackets) self (col_value self value col_nb brackets).
Proof.
  unfold returns, _col, col_value, bind, get.
  destruct (len self col_nb <? MIN_LEN col_nb)%Z; [reflexivity|].
  now destruct brackets.
Qed.

Lemma format_col_run (self : Match.t) (column : Col) (text : string) :
  shown self column text = true ->
  format_col (len self column - 1) text
  = Ok (cell self column text).
Proof.
  intros H. unfold cell. rewrite H. unfold format_col.
  unfold shown, MIN_LEN in H. apply andb_prop in H as [_ H].
  apply Z.leb_le in H.
  destruct (len self column - 1 <=? 0)%Z eqn:E; [apply Z.leb_le in E; lia|].
  reflexivity.
Qed.

Lemma menu_run (self : Match.t) (col1 col2 col3 : string) :
  returns (_menu col1 col2 col3) self (menu_value self col1 col2 col3).
Proof.
  unfold returns, _menu, menu_value, bind, get.
  destruct (truthy col1 && negb (truthy col2) && negb (truthy col3));
    [reflexivity|].
  fold (shown self Col1 col1). fold (shown self Col2 col2).
  unfold lift, ret.
  destruct (shown self Col1 col1) eqn:E1; destruct (shown self Col2 col2) eqn:E2;
    rewrite ?(format_col_run _ _ _ E1), ?(format_col_run _ _ _ E2);
    unfold cell; rewrite ?E1, ?E2; cbn [append];
    destruct (truthy col3) eqn:E3;
    try (apply truthy_false in E3; subst col3);
    rewrite ?append_nil_r, ?append_assoc; reflexivity.
Qed.

Lemma bind_ret (A B : Type) (v : A) (k : A -> M Match.t B) (self : Match.t) :
  bind (ret v) k self = k v self.
Proof. reflexivity. Qed.

Lemma bind_lift (A B : Type) (v : A) (k : A -> M Match.t B) (self : Match.t) :
  bind (lift (Ok v)) k self = k v self.
Proof. reflexivity. Qed.

Lemma bind_col (B : Type) (value : string) (col_nb : Col) (brackets : bool)
      (k : string -> M Match.t B) (self : Match.t) :
  bind (_col value col_nb brackets) k self
  = k (col_value self value col_nb brackets) self.
Proof. apply bind_returns, col_run. Qed.

Lemma bind_menu (B : Type) (col1 col2 col3 : string)
      (k : string -> M Match.t B) (self : Match.t) :
  bind (_menu col1 col2 col3) k self = k (menu_value self col1 col2 col3) self.
Proof. apply bind_returns, menu_run. Qed.

Ltac fields :=
  cbn [getitem Entry.word Entry.struct Entry.pkg Entry.info Entry.title
       Entry.menu Entry.args Entry.snippet Entry.set_word Entry.set_info
       Entry.set_title Entry.set_menu Entry.set_args Entry.set_snippet].

Ltac run :=
  repeat first [ rewrite bind_bind | rewrite bind_col | rewrite bind_menu
               | rewrite bind_lift | rewrite bind_ret | progress fields ].

Lemma arg_parts (word : string) :
  exists t, map strip (split "=" word) = arg_lhs word :: t
            /\ (if (List.length (arg_lhs word :: t) =? 2)%nat
                then index (arg_lhs word :: t) 1 else Ok "")
               = Ok (arg_rhs word).
Proof.
  unfold arg_lhs, arg_rhs.
  destruct (split_cons "=" word) as [t ->].
  exists (map strip t). split; [reflexivity|].
  destruct t as [|r [|r' t]]; reflexivity.
Qed.

Lemma process_argument_run (self : Match.t) (m : Entry.t) :
  returns (_process_argument m) self
    (Entry.mk (arg_lhs (Entry.word m)) (Entry.struct m) (Entry.pkg m)
       (Entry.info m) (Entry.title m)
       (Some (menu_value self (col_value self "argument" Col1 false)
                (if truthy (arg_rhs (Entry.word m))
                 then "= " ++ arg_rhs (Entry.word m) else "") ""))
       (Entry.args m) (Some (argument_snippet (Entry.word m)))).
Proof.
  unfold returns, _process_argument.
  destruct (arg_parts (Entry.word m)) as [t [-> Hr]].
  change (index (arg_lhs (Entry.word m) :: t) 0) with (Ok (arg_lhs (Entry.word m))).
  run.
  assert (R : (if (List.length (arg_lhs (Entry.word m) :: t) =? 2)%nat
               then lift (index (arg_lhs (Entry.word m) :: t) 1)
               else ret "")
              = (lift (Ok (arg_rhs (Entry.word m))) : M Match.t string)).
  { destruct (List.length (arg_lhs (Entry.word m) :: t) =? 2)%nat;
      [now rewrite Hr | now injection Hr as <-]. }
  rewrite R. run. unfold argument_snippet.
  destruct (truthy (arg_rhs (Entry.word m))); [|reflexivity].
  destruct (search_quotes (arg_rhs (Entry.word m))); reflexivity.
Qed.

Lemma process_package_run (self : Match.t) (m : Entry.t) (info : string) :
  Entry.info m = Some info ->
  returns (_process_package m) self
    (Entry.mk (Entry.word m) (Entry.struct m) (Entry.pkg m)
       (Entry.info m) (Entry.title m)
       (Some (menu_value self (col_value self "package" Col1 false) info ""))
       (Entry.args m) (Some (Entry.word m ++ "::$1"))).
Proof.
  destruct m as [w k p i t mn a sn]. cbn [Entry.info]. intros ->.
  unfold returns, _process_package. run. reflexivity.
Qed.

Lemma process_variable_run (self : Match.t) (m : Entry.t) :
  returns (_process_variable m) self
    (Entry.set_menu
       (menu_value self (col_value self "variable" Col1 false) (Entry.struct m) "")
       m).
Proof. unfold returns, _process_variable. run. reflexivity. Qed.

Lemma add_args_loop build self (args : list string) (m : Entry.t) (l : list Entry.t) :
  builds_arguments build self ->
  Entry.args m = Some l ->
  returns (for_fold args m (add_arg build)) self
    (Entry.set_args (l ++ map (argument_entry self) (filter has_entry args))%list m).
Proof.
  intros Hb. revert m l. induction args as [|arg args IH]; intros m l Hm.
  - cbn. rewrite app_nil_r. destruct m; cbn in *; subst; reflexivity.
  - unfold returns. cbn [for_fold filter]. unfold has_entry at 1, add_arg at 1.
    destruct (String.eqb arg "NO_ARGS" || String.eqb arg "..."); cbn [negb].
    + run. now apply IH.
    + rewrite Hm. run. rewrite (bind_returns _ _ _ _ (Hb arg)). run.
      rewrite (IH _ (l ++ [argument_entry self arg])%list) by reflexivity.
      fields. cbn [map]. now rewrite <- app_assoc.
Qed.

Lemma process_function_run build self (m : Entry.t) (info : string) :
  builds_arguments build self ->
  Entry.info m = Some info ->
  truthy info = true ->
  returns (_process_function build m) self
    (Entry.mk (Entry.word m) (Entry.struct m) (Entry.pkg m)
       (Entry.info m) (Entry.title m) (Entry.menu m)
       (Some (map (argument_entry self) (filter has_entry (args_of info))))
       (Some (snippet_of (Entry.word m) (args_of info)))).
Proof.
  intros Hb Hi Ht. destruct m as [w k p i t mn a sn]. cbn [Entry.info] in Hi.
  subst i. unfold returns, _process_function.
  run. rewrite init_run, Ht. run.
  erewrite bind_returns by (apply add_args_loop; [exact Hb | reflexivity]).
  run. reflexivity.
Qed.

Lemma process_function_raises build self (m : Entry.t) :
  Entry.info m = Some "" ->
  raises (_process_function build m) self IndexError.
Proof.
  intros Hi. unfold raises, _process_function. rewrite Hi. run.
  rewrite init_run. reflexivity.
Qed.

Lemma kind_dispatch_run build self (word struct pkg info : string) :
  (struct = "function" -> builds_arguments build self) ->
  kind_dispatch build word struct pkg info self
  = (dispatch_result self word struct pkg info, self).
Proof.
  intros Hb. unfold kind_dispatch, dispatch_result, fails, dispatched,
    args_value, snippet_value, word_value, kind_columns, menu_of, title_of.
  run.
  destruct (String.eqb_spec struct "function") as [->|Hf].
  { specialize (Hb eq_refl). cbn [String.eqb Ascii.eqb Bool.eqb andb].
    destruct (truthy info) eqn:Ht; cbn [negb].
    - destruct (search_title info); run;
        erewrite process_function_run by (first [exact Hb | reflexivity | exact Ht]);
        reflexivity.
    - apply truthy_false in Ht. subst info. run.
      now rewrite process_function_raises. }
  cbn [andb].
  destruct (String.eqb struct "data.frame" || String.eqb struct "tbl_df") eqn:Ed.
  { assert (String.eqb struct "package" = false /\ String.eqb struct "argument" = false)
      as [-> ->].
    { apply orb_prop in Ed as [E|E]; apply String.eqb_eq in E; subst; now split. }
    destruct (truthy info); [destruct (search_title info)|]; run; reflexivity. }
  destruct (String.eqb_spec struct "package") as [->|Hp].
  { destruct (truthy info); [destruct (search_title info)|]; run;
      erewrite process_package_run by reflexivity; reflexivity. }
  destruct (String.eqb_spec struct "argument") as [->|Ha].
  { destruct (truthy info); [destruct (search_title info)|]; run;
      rewrite process_argument_run; reflexivity. }
  destruct (truthy info); [destruct (search_title info)|]; run; reflexivity.
Qed.

Lemma build_body_run build self (word struct pkg info : string) :
  (struct = "function" -> builds_arguments build self) ->
  build_body build word struct pkg info self
  = (build_result self word struct pkg info, self).
Proof.
  intros Hb. unfold build_body, bind.
  rewrite (kind_dispatch_run _ _ _ _ _ _ Hb).
  unfold dispatch_result, build_result.
  destruct (fails struct info); [reflexivity|].
  unfold built, dispatched, menu_columns.
  destruct (contains "$" word).
  - rewrite process_variable_run. reflexivity.
  - reflexivity.
Qed.

Lemma build_depth_arguments (d : nat) (self : Match.t) :
  builds_arguments (build_depth (S d)) self.
Proof.
  intros arg. unfold returns. cbn [build_depth].
  rewrite build_body_run by discriminate. reflexivity.
Qed.

(** Two nested calls are as good as any number of them. *)
Lemma build_depth_run (d : nat) (self : Match.t) (word struct pkg info : string) :
  build_depth (S (S d)) word struct pkg info self
  = (build_result self word struct pkg info, self).
Proof.
  cbn [build_depth]. apply build_body_run. intros _.
  apply (build_depth_arguments d).
Qed.

(** [build] computes [build_result] and leaves [self] as it was. *)
Lemma build_run (self : Match.t) (word struct pkg info : string) :
  build word struct pkg info self = (build_result self word struct pkg info, self).
Proof. apply (build_depth_run 0). Qed.

(** [build] satisfies the recursive equation of the source. *)
Lemma build_unfold (self : Match.t) (word struct pkg info : string) :
  build word struct pkg info self = build_body build word struct pkg info self.
Proof.
  rewrite build_run. symmetry. apply build_body_run. intros _ arg.
  unfold returns. rewrite build_run. reflexivity.
Qed.

(** [build] returns unless the entry is a function without [info]. *)
Lemma build_returns (self : Match.t) (word struct pkg info : string) :
  fails struct info = false ->
  returns (build word struct pkg info) self
    (built self word struct pkg info (args_value self struct info)).
Proof.
  intros H. unfold returns. rewrite build_run. unfold build_result. now rewrite H.
Qed.

Lemma build_raises (self : Match.t) (word struct pkg info : string) :
  fails struct info = true ->
  raises (build word struct pkg info) self IndexError.
Proof.
  intros H. unfold raises. rewrite build_run. unfold build_result. now rewrite H.
Qed.

Lemma fails_iff (struct info : string) :
  fails struct info = true <-> struct = "function" /\ info = "".
Proof.
  unfold fails. rewrite andb_true_iff, negb_true_iff, String.eqb_eq, truthy_false.
  reflexivity.
Qed.

(** ** class Matches: what [from_omnils] and [from_pkg_desc] compute *)

Import Spec.

Lemma index_nth (l : list string) (n : nat) :
  (n < List.length l)%nat -> index l n = Ok (nth n l "").
Proof.
  intros H. unfold index. now rewrite (nth_error_nth' l "" H).
Qed.

Lemma from_omnils_step (self : Match.t) (line : string) (matches : list Entry.t)
      (B : Type) (k : list Entry.t -> M Match.t B) :
  qualifies line = true ->
  bind (let parts := split x06 line in
        if (5 <=? List.length parts)%nat then
          p0 <- lift (index parts 0) ;;
          p1 <- lift (index parts 1) ;;
          p3 <- lift (index parts 3) ;;
          p4 <- lift (index parts 4) ;;
          e <- Match.build p0 p1 p3 p4 ;;
          ret (matches ++ [e])%list
        else ret matches) k self
  = bind (Match.build (field 0 line) (field 1 line) (field 3 line) (field 4 line))
         (fun e => k (matches ++ [e])%list) self.
Proof.
  unfold qualifies, field. intros H. cbv zeta. rewrite H.
  apply Nat.leb_le in H.
  rewrite !index_nth by lia. run. reflexivity.
Qed.

(** Without a function that has no [info], [from_omnils] returns the
    entries of the lines with five fields or more, in their order. *)
Lemma from_omnils_acc (self : Match.t) (lines : list string) (acc : list Entry.t) :
  forallb (fun line => negb (line_fails line)) (filter qualifies lines) = true ->
  returns (for_fold lines acc (fun line matches =>
      let parts := split x06 line in
      if (5 <=? List.length parts)%nat then
        p0 <- lift (index parts 0) ;;
        p1 <- lift (index parts 1) ;;
        p3 <- lift (index parts 3) ;;
        p4 <- lift (index parts 4) ;;
        e <- Match.build p0 p1 p3 p4 ;;
        ret (matches ++ [e])%list
      else ret matches)) self
    (acc ++ map (line_entry self) (filter qualifies lines))%list.
Proof.
  revert acc. induction lines as [|line lines IH]; intros acc H.
  - cbn. now rewrite app_nil_r.
  - unfold returns. cbn [for_fold filter] in *.
    destruct (qualifies line) eqn:Q.
    + cbn [forallb map] in H. apply andb_prop in H as [H1 H2].
      rewrite from_omnils_step by exact Q.
      rewrite (bind_returns _ _ _ _ (build_returns self _ _ _ _
                 (proj1 (negb_true_iff _) H1))).
      rewrite (IH _ H2). cbn [map]. now rewrite <- app_assoc.
    + unfold qualifies in Q. cbv zeta. rewrite Q. run. now apply IH.
Qed.

Lemma from_omnils_returns (self : Match.t) (lines : list string) :
  forallb (fun line => negb (line_fails line)) (filter qualifies lines) = true ->
  returns (Matches.from_omnils lines) self
    (map (line_entry self) (filter qualifies lines)).
Proof. intros H. apply (from_omnils_acc self lines [] H). Qed.

(** [from_pkg_desc] raises on no input: it returns the entries of the
    lines with two fields or more, in their order. *)
Lemma from_pkg_desc_acc (self : Match.t) (lines : list string) (acc : list Entry.t) :
  returns (for_fold lines acc (fun line matches =>
      let parts := split tab line in
      if (2 <=? List.length parts)%nat then
        p0 <- lift (index parts 0) ;;
        p1 <- lift (index parts 1) ;;
        e <- Match.build p0 "package" "" p1 ;;
        ret (matches ++ [e])%list
      else ret matches)) self
    (acc ++ map (pkg_line_entry self) (filter pkg_qualifies lines))%list.
Proof.
  revert acc. induction lines as [|line lines IH]; intros acc.
  - cbn. now rewrite app_nil_r.
  - unfold returns. cbn [for_fold filter]. unfold pkg_qualifies at 1.
    cbv zeta. destruct (2 <=? List.length (split tab line))%nat eqn:Q.
    + apply Nat.leb_le in Q. rewrite !index_nth by lia. run.
      rewrite (bind_returns _ _ _ _ (build_returns self _ "package" "" _ eq_refl)).
      run. rewrite IH. cbn [map]. now rewrite <- app_assoc.
    + run. apply IH.
Qed.

Lemma from_pkg_desc_returns (self : Match.t) (lines : list string) :
  returns (Matches.from_pkg_desc lines) self
    (map (pkg_line_entry self) (filter pkg_qualifies lines)).
Proof. apply (from_pkg_desc_acc self lines []). Qed.

(** ** The examples of the specification *)

Example function_foo_a_b :
  exists f,
    Function.__init__ "foo" ("a" ++ String tab ("b" ++ String x07 "1")) = Ok f
    /\ Function.args f = ["a"; "b = 1"]
    /\ Function.mandatory (Function.args f) = ["a"]
    /\ Function.snippet f = "foo(${1:a})".
Proof. eexists. split; [reflexivity|]. repeat split. Qed.

Example function_foo_no_args :
  exists e,
    returns (Match.build "foo" "function" "base" "NO_ARGS") Match.__init__ e
    /\ Entry.snippet e = Some "foo()" /\ Entry.args e = Some [].
Proof. eexists. split; [reflexivity|]. split; reflexivity. Qed.

Example function_foo_all_optional :
  exists f,
    Function.__init__ "foo" ("x" ++ String x07 ("1" ++ String tab ("y" ++ String x07 "2")))
    = Ok f
    /\ Function.args f = ["x = 1"; "y = 2"]
    /\ Function.snippet f = "foo($1)".
Proof. eexists. split; [reflexivity|]. repeat split. Qed.

Example argument_quoted_default :
  exists e,
    returns (Match.build ("n = " ++ String dquote ("bar" ++ String dquote ""))
                         "argument" "" "") Match.__init__ e
    /\ Entry.word e = "n"
    /\ Entry.snippet e
       = Some ("n = " ++ String dquote ("${1:bar}" ++ String dquote ""))
    /\ Entry.menu e = Some ("argument   = " ++ String dquote ("bar" ++ String dquote "")).
Proof. eexists. split; [reflexivity|]. repeat split. Qed.

Example argument_without_default :
  exists e,
    returns (Match.build "n" "argument" "" "") Match.__init__ e
    /\ Entry.snippet e = Some "n = $1" /\ Entry.menu e = Some "argument".
Proof. eexists. split; [reflexivity|]. split; reflexivity. Qed.

Example title_of_info :
  exists e,
    returns (Match.build "mean" "function" "base"
               ("x" ++ String tab ("..." ++ String x08 ("Arithmetic Mean" ++ String x05 ""))))
            Match.__init__ e
    /\ Entry.menu e = Some "{base}     function   Arithmetic Mean"
    /\ Entry.snippet e = Some "mean(${1:x})"
    /\ option_map (map Entry.word) (Entry.args e) = Some ["x"].
Proof. eexists. split; [reflexivity|]. repeat split. Qed.

(** ** The claims *)

(** C1.  The claim is that no call of [build] lets an exception through,
    a function without [info] included.  The code raises there: for every
    word, package and column widths, [build] with struct [function] and
    an empty [info] raises [IndexError], from [self.args[0]] in
    [Function._make_snippet] on the empty list that [_get_args] leaves. *)
Theorem build_function_without_info_raises
        (self : Match.t) (word pkg : string) :
  raises (Match.build word "function" pkg "") self IndexError.
Proof. apply build_raises. reflexivity. Qed.

(** C2.  The claim is that [from_omnils] yields one entry for each line
    with five fields.  The line [foo 0x06 function 0x06 0x06 base 0x06]
    has five fields, and [from_omnils] raises [IndexError] on it and
    yields no entry. *)
Theorem from_omnils_function_without_info_raises (self : Match.t) :
  let line :=
    "foo" ++ String x06 ("function" ++ String x06 (String x06 ("base" ++ String x06 "")))
  in
  split x06 line = ["foo"; "function"; ""; "base"; ""]
  /\ raises (Matches.from_omnils [line]) self IndexError.
Proof.
  cbv zeta. split; [reflexivity|].
  unfold raises, Matches.from_omnils. cbn [for_fold].
  rewrite from_omnils_step by reflexivity.
  apply bind_raises. apply build_raises. reflexivity.
Qed.

(** C9.  Two calls of [build] with the same arguments, the second on the
    object that the first has left, have the same outcome (the same entry,
    or the same exception), and each leaves the object, and with it the
    two column widths, as it found it. *)
Theorem build_twice (self : Match.t) (word struct pkg info : string) :
  let (r1, self1) := Match.build word struct pkg info self in
  let (r2, self2) := Match.build word struct pkg info self1 in
  r1 = r2 /\ self1 = self /\ self2 = self
  /\ (forall column, Match.len self1 column = Match.len self column)
  /\ (forall column, Match.len self2 column = Match.len self column).
Proof.
  rewrite build_run. rewrite build_run. repeat split; reflexivity.
Qed.

(** C3, as claimed, fails: for [paste] with the arguments [...] and [sep]
    the specification has two tokens that get a sub-entry, the first [...]
    among them, and [build] returns the single sub-entry of [sep]. *)
Lemma first_dots_has_no_entry :
  let info := "..." ++ String tab "sep" in
  exists f e subs,
    Function.__init__ "paste" info = Ok f
    /\ Function.args f = ["..."; "sep"]
    /\ spec_arg_tokens false (Function.args f) = ["..."; "sep"]
    /\ returns (Match.build "paste" "function" "base" info) Match.__init__ e
    /\ Entry.args e = Some subs
    /\ map Entry.word subs = ["sep"]
    /\ ~ Forall2 (fun arg sub =>
                    returns (Match.build arg "argument" "" "") Match.__init__ sub)
                 (spec_arg_tokens false (Function.args f)) subs.
Proof.
  cbv zeta. eexists. eexists. eexists.
  split; [reflexivity|]. split; [reflexivity|]. split; [reflexivity|].
  split; [apply build_returns; reflexivity|].
  split; [reflexivity|]. split; [reflexivity|].
  intros H. inversion H as [|? ? ? ? _ H']. inversion H'.
Qed.

(** C3, amended.  For every function-kind build with a non-empty [info],
    the key [args] holds one entry for each argument of the function
    other than [NO_ARGS] and [...] (every [...], the first included), in
    their order: the entry that [build] returns for the argument with
    struct [argument] and an empty [pkg] and [info]. *)
Theorem function_args_entries (self : Match.t) (word pkg info : string) :
  info <> "" ->
  exists f e subs,
    Function.__init__ word info = Ok f
    /\ returns (Match.build word "function" pkg info) self e
    /\ Entry.args e = Some subs
    /\ Forall2 (fun arg sub =>
                  returns (Match.build arg "argument" "" "") self sub
                  /\ Entry.struct sub = "argument"
                  /\ Entry.pkg sub = "" /\ Entry.args sub = None)
               (filter (fun arg => negb (String.eqb arg "NO_ARGS"
                                         || String.eqb arg "..."))
                       (Function.args f))
               subs.
Proof.
  intros H. apply truthy_true in H.
  exists (Function.mk word info (args_of info) (snippet_of word (args_of info))).
  exists (built self word "function" pkg info (args_value self "function" info)).
  exists (map (argument_entry self) (filter has_entry (args_of info))).
  split; [now rewrite init_run, H|].
  split; [apply build_returns; unfold fails; now rewrite H|].
  split; [reflexivity|].
  cbn [Function.args]. fold has_entry.
  induction (filter has_entry (args_of info)) as [|arg l IH]; constructor.
  - repeat split. apply build_returns. reflexivity.
  - exact IH.
Qed.

Lemma function_args_entries_witness :
  "x" ++ String tab "..." <> ""
  /\ exists f e subs,
    Function.__init__ "f" ("x" ++ String tab "...") = Ok f
    /\ returns (Match.build "f" "function" "base" ("x" ++ String tab "..."))
               Match.__init__ e
    /\ Entry.args e = Some subs
    /\ Forall2 (fun arg sub =>
                  returns (Match.build arg "argument" "" "") Match.__init__ sub
                  /\ Entry.struct sub = "argument"
                  /\ Entry.pkg sub = "" /\ Entry.args sub = None)
               (filter (fun arg => negb (String.eqb arg "NO_ARGS"
                                         || String.eqb arg "..."))
                       (Function.args f))
               subs.
Proof.
  split; [discriminate|].
  apply (function_args_entries Match.__init__ "f" "base" ("x" ++ String tab "...")).
  discriminate.
Defined.

(** C4, as claimed, fails: with the arguments [x] and [...] the first
    occurrence of [...] is the second mandatory token; the specification
    gives it the placeholder 2, the code passes over it. *)
Lemma first_dots_after_token_is_passed_over :
  exists f,
    Function.__init__ "f" ("x" ++ String tab "...") = Ok f
    /\ Function.args f = ["x"; "..."]
    /\ Function.mandatory (Function.args f) = ["x"; "..."]
    /\ Function.snippet f = "f(${1:x})"
    /\ spec_snippet "f" (Function.args f) = "f(${1:x}, ${2:...})"
    /\ Function.snippet f <> spec_snippet "f" (Function.args f).
Proof.
  eexists. split; [reflexivity|]. repeat split. discriminate.
Qed.

(** C4, amended.  In the construction of a function snippet, among the
    mandatory tokens (those without [=]), [...] gets a numbered
    placeholder only where it is the first mandatory token, and every
    later [...] is passed over, whether or not it is the first occurrence;
    every mandatory token that is neither such a [...] nor, after the
    first position, empty or one or two dots gets the placeholder
    [${i:token}] with [i] its 1-based position among the mandatory tokens.
    The placeholders are joined by a comma and a space, in the order of
    the tokens, between the word with an opening parenthesis and a
    closing parenthesis.  The test [keep] says which items of
    [enumerate(mand_args)] get their placeholder; the theorem fixes it on
    every item but the empty token and the one or two dots after the
    first position. *)
Theorem make_snippet_placeholders (f : Function.t) :
  Function.args f <> [] ->
  hd "" (Function.args f) <> "NO_ARGS" ->
  exists f' keep,
    Function._make_snippet f = (Ok tt, f')
    /\ Function.args f' = Function.args f
    /\ Function.snippet f'
       = Function._word f ++ "("
         ++ match Function.mandatory (Function.args f) with
            | [] => "$1"
            | mand_args =>
                String.concat ", "
                  (map placeholder (filter keep (enumerate mand_args)))
            end
         ++ ")"
    /\ (forall i tok,
           placeholder (i, tok) = "${" ++ str (i + 1) ++ ":" ++ tok ++ "}")
    /\ (forall tok, keep (0, tok) = true)
    /\ (forall i, keep (S i, "...") = false)
    /\ (forall i tok,
           tok <> "" -> tok <> "." -> tok <> ".." -> tok <> "..." ->
           keep (i, tok) = true).
Proof.
  intros Ha Hn.
  exists (Function.set_snippet
            (snippet_of (Function._word f) (Function.args f)) f).
  exists (fun item => negb (passed_over item)).
  split; [apply make_snippet_run; exact Ha|].
  split; [reflexivity|].
  split.
  { cbn [Function.snippet Function.set_snippet]. unfold snippet_of.
    apply String.eqb_neq in Hn. rewrite Hn.
    destruct (Function.mandatory (Function.args f)); reflexivity. }
  split; [reflexivity|].
  split.
  { intros tok. unfold passed_over. cbn [fst snd Nat.ltb Nat.leb].
    now rewrite andb_false_r. }
  split; [reflexivity|].
  intros i tok N0 N1 N2 N3. unfold passed_over. cbn [fst snd].
  destruct (contains tok "...") eqn:E; [|reflexivity].
  apply contains_dots in E. intuition congruence.
Qed.

Lemma make_snippet_placeholders_witness :
  let f := Function.mk "foo" "" ["a"; ""; "..."; "b = 1"; "c"] "" in
  Function.args f <> []
  /\ hd "" (Function.args f) <> "NO_ARGS"
  /\ exists f' keep,
      Function._make_snippet f = (Ok tt, f')
      /\ Function.args f' = Function.args f
      /\ Function.snippet f'
         = Function._word f ++ "("
           ++ match Function.mandatory (Function.args f) with
              | [] => "$1"
              | mand_args =>
                  String.concat ", "
                    (map placeholder (filter keep (enumerate mand_args)))
              end
           ++ ")"
      /\ (forall i tok,
             placeholder (i, tok) = "${" ++ str (i + 1) ++ ":" ++ tok ++ "}")
      /\ (forall tok, keep (0, tok) = true)
      /\ (forall i, keep (S i, "...") = false)
      /\ (forall i tok,
             tok <> "" -> tok <> "." -> tok <> ".." -> tok <> "..." ->
             keep (i, tok) = true).
Proof.
  cbv zeta.
  assert (H1 : Function.args
                 (Function.mk "foo" "" ["a"; ""; "..."; "b = 1"; "c"] "") <> [])
    by discriminate.
  assert (H2 : hd "" (Function.args
                        (Function.mk "foo" "" ["a"; ""; "..."; "b = 1"; "c"] ""))
               <> "NO_ARGS") by discriminate.
  split; [exact H1|]. split; [exact H2|].
  exact (make_snippet_placeholders _ H1 H2).
Defined.

Example snippet_of_foo_skips_later_dots :
  Function._make_snippet (Function.mk "foo" "" ["a"; "..."; "b = 1"; "c"; "..."] "")
  = (Ok tt, Function.mk "foo" "" ["a"; "..."; "b = 1"; "c"; "..."]
                        "foo(${1:a}, ${3:c})").
Proof. reflexivity. Qed.

Example snippet_of_foo_keeps_position :
  Function._make_snippet (Function.mk "foo" "" ["a"; ""; "..."; "b = 1"; "c"] "")
  = (Ok tt, Function.mk "foo" "" ["a"; ""; "..."; "b = 1"; "c"]
                        "foo(${1:a}, ${4:c})").
Proof. reflexivity. Qed.

(** C5, as claimed, fails: a package whose word holds a dollar gets the
    menu of a variable, not the menu made of the label [package] and of
    [info]. *)
Lemma package_with_dollar_gets_variable_menu :
  exists e,
    returns (Match.build "a$b" "package" "" "desc") Match.__init__ e
    /\ Entry.snippet e = Some "a$b::$1"
    /\ Entry.menu e = Some "variable   package"
    /\ returns (Match._col "package" Col1 false) Match.__init__ "package"
    /\ returns (Match._menu "package" "desc" "") Match.__init__ "package    desc"
    /\ Entry.menu e <> Some "package    desc".
Proof.
  eexists. split; [reflexivity|]. repeat split. discriminate.
Qed.

(** C5, amended.  For every package-kind build the snippet is the word
    followed by [::$1].  When the word holds no dollar, the menu is the
    value of [_menu] for column 1 the label [package] as [_col] cuts it
    and column 2 the [info] as it is, with no third column: the [info]
    goes through no [_col], and the title is not used.  When the word
    holds a dollar, the menu is that of a variable: the value of [_menu]
    for the label [variable] and the struct, [package]. *)
Theorem package_entry (self : Match.t) (word pkg info : string) :
  exists e,
    returns (Match.build word "package" pkg info) self e
    /\ Entry.snippet e = Some (word ++ "::$1")
    /\ (contains "$" word = false ->
        exists c1 m,
          returns (Match._col "package" Col1 false) self c1
          /\ returns (Match._menu c1 info "") self m
          /\ Entry.menu e = Some m)
    /\ (contains "$" word = true ->
        exists c1 m,
          returns (Match._col "variable" Col1 false) self c1
          /\ returns (Match._menu c1 "package" "") self m
          /\ Entry.menu e = Some m).
Proof.
  eexists.
  split; [apply build_returns; reflexivity|].
  split; [reflexivity|].
  split; intros H; eexists; eexists;
    (split; [apply col_run|]); (split; [apply menu_run|]);
    cbn [built Entry.menu]; unfold menu_columns; rewrite H; reflexivity.
Qed.

Example package_dplyr :
  exists e,
    returns (Match.build "dplyr" "package" "" "Data manipulation") Match.__init__ e
    /\ Entry.snippet e = Some "dplyr::$1"
    /\ Entry.menu e = Some "package    Data manipulation".
Proof. eexists. split; [reflexivity|]. split; reflexivity. Qed.

(** C6.  For every call of [build] whose word holds a dollar: the kind
    dispatch returns a dictionary, and [build] returns it with the menu
    replaced by the value of [_menu] for column 1 the label [variable]
    and column 2 the struct, and with the same word, struct, pkg, snippet
    and args; or the entry is a function without [info], and the kind
    dispatch and [build] raise the same [IndexError]. *)
Theorem dollar_overrides_menu (self : Match.t) (word struct pkg info : string) :
  contains "$" word = true ->
  (exists m0 e c1 m,
      returns (Match.kind_dispatch Match.build word struct pkg info) self m0
      /\ returns (Match.build word struct pkg info) self e
      /\ returns (Match._col "variable" Col1 false) self c1
      /\ returns (Match._menu c1 struct "") self m
      /\ Entry.menu e = Some m
      /\ Entry.word e = Entry.word m0
      /\ Entry.struct e = Entry.struct m0
      /\ Entry.pkg e = Entry.pkg m0
      /\ Entry.snippet e = Entry.snippet m0
      /\ Entry.args e = Entry.args m0)
  \/ (struct = "function" /\ info = ""
      /\ raises (Match.kind_dispatch Match.build word struct pkg info) self IndexError
      /\ raises (Match.build word struct pkg info) self IndexError).
Proof.
  intros H.
  assert (D : Match.kind_dispatch Match.build word struct pkg info self
              = (dispatch_result self word struct pkg info, self)).
  { apply kind_dispatch_run. intros _. apply (build_depth_arguments 1). }
  destruct (fails struct info) eqn:F.
  - right. apply fails_iff in F as F'. destruct F' as [-> ->].
    repeat split.
    + unfold raises. rewrite D. reflexivity.
    + apply build_raises. reflexivity.
  - left. eexists. eexists. eexists. eexists.
    split; [unfold returns; rewrite D; unfold dispatch_result; rewrite F; reflexivity|].
    split; [apply build_returns; exact F|].
    split; [apply col_run|].
    split; [apply menu_run|].
    cbn [built dispatched Entry.menu Entry.word Entry.struct Entry.pkg
         Entry.snippet Entry.args].
    unfold menu_columns. rewrite H. repeat split.
Qed.

Lemma dollar_overrides_menu_witness :
  contains "$" "df$col" = true
  /\ ((exists m0 e c1 m,
          returns (Match.kind_dispatch Match.build "df$col" "function" "base" "x")
                  Match.__init__ m0
          /\ returns (Match.build "df$col" "function" "base" "x") Match.__init__ e
          /\ returns (Match._col "variable" Col1 false) Match.__init__ c1
          /\ returns (Match._menu c1 "function" "") Match.__init__ m
          /\ Entry.menu e = Some m
          /\ Entry.word e = Entry.word m0
          /\ Entry.struct e = Entry.struct m0
          /\ Entry.pkg e = Entry.pkg m0
          /\ Entry.snippet e = Entry.snippet m0
          /\ Entry.args e = Entry.args m0)
      \/ ("function" = "function" /\ "x" = ""
          /\ raises (Match.kind_dispatch Match.build "df$col" "function" "base" "x")
                    Match.__init__ IndexError
          /\ raises (Match.build "df$col" "function" "base" "x")
                    Match.__init__ IndexError)).
Proof.
  split; [reflexivity|].
  apply (dollar_overrides_menu Match.__init__ "df$col" "function" "base" "x").
  reflexivity.
Defined.

Example dollar_function :
  exists e,
    returns (Match.build "df$col" "function" "base" "x") Match.__init__ e
    /\ Entry.menu e = Some "variable   function"
    /\ Entry.snippet e = Some "df$col(${1:x})".
Proof. eexists. split; [reflexivity|]. split; reflexivity. Qed.

Lemma arg_rhs_two_equals (word : string) :
  (2 <= count "=" word)%nat -> arg_rhs word = "".
Proof.
  intros H. unfold arg_rhs. pose proof (split_length "=" word) as L.
  destruct (split "=" word) as [|a [|b [|c l]]]; cbn in L; try reflexivity; lia.
Qed.

(** C10, as claimed, fails: the word of the entry of [x = a=b] is [x],
    and the text before the first [=] is [x] and a space. *)
Lemma argument_word_is_stripped :
  exists e,
    returns (Match.build "x = a=b" "argument" "" "") Match.__init__ e
    /\ Entry.word e = "x"
    /\ before_first "=" "x = a=b" = "x "
    /\ Entry.word e <> before_first "=" "x = a=b".
Proof.
  eexists. split; [reflexivity|]. repeat split. discriminate.
Qed.

(** C10, amended.  For every argument-kind build whose word holds two
    [=] or more, the default is dropped: the word of the entry is the
    text before the first [=] with the whitespace at its two ends
    removed, the snippet is that word followed by [ = $1], and, when the
    word holds no dollar, column 2 of the menu is empty: the menu is
    column 1 alone, the label [argument] as [_col] cuts it. *)
Theorem argument_with_two_equals (self : Match.t) (word pkg info : string) :
  (2 <= count "=" word)%nat ->
  exists e,
    returns (Match.build word "argument" pkg info) self e
    /\ Entry.word e = strip (before_first "=" word)
    /\ Entry.snippet e = Some (Entry.word e ++ " = $1")
    /\ (contains "$" word = false ->
        exists c1,
          returns (Match._col "argument" Col1 false) self c1
          /\ returns (Match._menu c1 "" "") self c1
          /\ Entry.menu e = Some c1).
Proof.
  intros H. pose proof (arg_rhs_two_equals word H) as R.
  eexists. split; [apply build_returns; reflexivity|].
  split; [reflexivity|].
  split.
  - cbn [built Entry.snippet Entry.word]. unfold snippet_value, word_value.
    cbn [String.eqb Ascii.eqb Bool.eqb andb orb]. unfold argument_snippet.
    rewrite R. reflexivity.
  - intros D. eexists. split; [apply col_run|].
    assert (E : menu_value self (col_value self "argument" Col1 false) "" ""
                = col_value self "argument" Col1 false).
    { unfold menu_value. now destruct (col_value self "argument" Col1 false). }
    split.
    + unfold returns. rewrite menu_run. now rewrite E.
    + cbn [built Entry.menu]. unfold menu_columns, kind_columns. rewrite D.
      cbn [String.eqb Ascii.eqb Bool.eqb andb orb]. rewrite R.
      cbn [truthy menu_of]. now rewrite E.
Qed.

Lemma argument_with_two_equals_witness :
  (2 <= count "=" "x = a=b")%nat
  /\ exists e,
    returns (Match.build "x = a=b" "argument" "" "") Match.__init__ e
    /\ Entry.word e = strip (before_first "=" "x = a=b")
    /\ Entry.snippet e = Some (Entry.word e ++ " = $1")
    /\ (contains "$" "x = a=b" = false ->
        exists c1,
          returns (Match._col "argument" Col1 false) Match.__init__ c1
          /\ returns (Match._menu c1 "" "") Match.__init__ c1
          /\ Entry.menu e = Some c1).
Proof.
  split; [cbn; lia|].
  apply (argument_with_two_equals Match.__init__ "x = a=b" "" "").
  cbn; lia.
Defined.

Example argument_x_a_b :
  exists e,
    returns (Match.build "x = a=b" "argument" "" "") Match.__init__ e
    /\ Entry.word e = "x"
    /\ Entry.snippet e = Some "x = $1"
    /\ Entry.menu e = Some "argument".
Proof. eexists. split; [reflexivity|]. repeat split. Qed.

(** ** The columns of the menu *)

Lemma col_value_narrow (self : Match.t) (value : string) (column : Col) (brackets : bool) :
  (len self column < MIN_LEN column)%Z -> col_value self value column brackets = "".
Proof.
  intros H. unfold col_value. apply Z.ltb_lt in H. now rewrite H.
Qed.

Lemma col_value_fits (self : Match.t) (value : string) (column : Col) (brackets : bool) :
  fits self column (col_value self value column brackets).
Proof.
  unfold fits, col_value.
  destruct (len self column <? MIN_LEN column)%Z eqn:E; [now left|].
  right. apply Z.ltb_ge in E. split; [exact E|]. unfold MIN_LEN in E.
  destruct brackets.
  - rewrite length_append. cbn [String.length]. rewrite length_append.
    cbn [String.length].
    pose proof (slice_to_length value (len self column - 3)). lia.
  - pose proof (slice_to_length value (len self column - 1)). lia.
Qed.

Lemma truthy_slice_to (value : string) (stop : Z) :
  (1 <= stop)%Z -> truthy (slice_to value stop) = truthy value.
Proof.
  intros H. unfold slice_to. destruct (stop <? 0)%Z eqn:E; [lia|].
  destruct (Z.to_nat stop) as [|n] eqn:N; [lia|]. now destruct value.
Qed.

Lemma shown_col_value (self : Match.t) (value : string) (column : Col) (brackets : bool) :
  shown self column (col_value self value column brackets)
  = (brackets || truthy value) && (MIN_LEN column <=? len self column)%Z.
Proof.
  unfold shown, col_value.
  destruct (len self column <? MIN_LEN column)%Z eqn:E.
  - apply Z.ltb_lt in E.
    destruct (MIN_LEN column <=? len self column)%Z eqn:E'; [apply Z.leb_le in E'; lia|].
    now rewrite !andb_false_r.
  - apply Z.ltb_ge in E. unfold MIN_LEN in *. destruct brackets; [reflexivity|].
    rewrite truthy_slice_to by lia. reflexivity.
Qed.

Lemma cell_length (self : Match.t) (column : Col) (text : string) :
  fits self column text ->
  Z.of_nat (String.length (cell self column text)) = room self column text.
Proof.
  unfold cell, room. destruct (shown self column text) eqn:E; [|reflexivity].
  intros [->|[H1 H2]]; [discriminate|].
  rewrite !length_append, length_spaces. cbn [String.length]. lia.
Qed.

(** The menu is no longer than the room of its columns and its title. *)
Lemma menu_value_length (self : Match.t) (col1 col2 col3 : string) :
  fits self Col1 col1 -> fits self Col2 col2 ->
  (Z.of_nat (String.length (menu_value self col1 col2 col3))
   <= room self Col1 col1 + room self Col2 col2
      + Z.of_nat (String.length col3))%Z.
Proof.
  intros F1 F2. unfold menu_value.
  destruct (truthy col1 && negb (truthy col2) && negb (truthy col3)) eqn:E.
  - apply andb_prop in E as [E E3]. apply andb_prop in E as [E1 E2].
    unfold room at 1, shown. rewrite E1.
    destruct F1 as [->|[H1 H2]]; [discriminate|].
    apply Z.leb_le in H1 as H1'. rewrite H1'. cbn [andb].
    assert (0 <= room self Col2 col2)%Z.
    { unfold room. destruct (shown self Col2 col2) eqn:S2; [|lia].
      unfold shown, MIN_LEN in S2. apply andb_prop in S2 as [_ S2].
      apply Z.leb_le in S2. lia. }
    lia.
  - pose proof (strip_length (cell self Col1 col1 ++ cell self Col2 col2 ++ col3)) as L.
    rewrite !length_append in L.
    pose proof (cell_length self Col1 col1 F1).
    pose proof (cell_length self Col2 col2 F2). lia.
Qed.

(** C7, as claimed, fails: the description of a package is column 2 of
    its menu, uncut; here it is shown, longer than the width of column 2,
    and the menu is longer than the two widths together. *)
Lemma package_description_exceeds_budget :
  let info := "A Grammar of Data Manipulation" in
  exists e m,
    returns (Match.build "dplyr" "package" "" info) Match.__init__ e
    /\ Entry.menu e = Some m
    /\ m = "package    A Grammar of Data Manipulation"
    /\ menu_columns Match.__init__ "dplyr" "package" "" info = ("package", info, "")
    /\ shown Match.__init__ Col2 info = true
    /\ (Match.len Match.__init__ Col2 < Z.of_nat (String.length info))%Z
    /\ (Match.len Match.__init__ Col1 + Match.len Match.__init__ Col2
        < Z.of_nat (String.length m))%Z.
Proof.
  cbv zeta. eexists. eexists. split; [reflexivity|].
  split; [reflexivity|]. repeat split.
Qed.

(** C7, amended.  For every entry that [build] produces, under any
    column widths: the menu is the value of [_menu] for three columns, of
    which column 1 always fits its width less one; in a base menu (no
    dollar in the word, struct neither [package] nor [argument]) column 2
    fits its width less one as well, column 3 is the title, uncut, and
    the menu is no longer than the widths of the columns shown and the
    length of the title together; in the other menus column 2 is uncut
    (the [info] of a package, the default of an argument, the struct of a
    word with a dollar) and there is no column 3.  Column 1 is shown if
    and only if its width is the minimum or more, column 2 if and only if
    its width is the minimum or more and its field is not empty.  The
    only call that produces no entry is a function without [info]. *)
Theorem menu_columns_budget (self : Match.t) (word struct pkg info : string) :
  (struct = "function" /\ info = ""
   /\ raises (Match.build word struct pkg info) self IndexError)
  \/ exists e c1 c2 c3 m,
      returns (Match.build word struct pkg info) self e
      /\ menu_columns self word struct pkg info = (c1, c2, c3)
      /\ returns (Match._menu c1 c2 c3) self m
      /\ Entry.menu e = Some m
      /\ fits self Col1 c1
      /\ shown self Col1 c1 = (MIN_LEN Col1 <=? len self Col1)%Z
      /\ shown self Col2 c2
         = truthy (col2_field word struct info) && (MIN_LEN Col2 <=? len self Col2)%Z
      /\ (base_menu word struct = true ->
          fits self Col2 c2 /\ c3 = title_of info
          /\ (Z.of_nat (String.length m)
              <= room self Col1 c1 + room self Col2 c2
                 + Z.of_nat (String.length c3))%Z)
      /\ (base_menu word struct = false ->
          c2 = col2_field word struct info /\ c3 = "").
Proof.
  destruct (fails struct info) eqn:F.
  { left. apply fails_iff in F as F'. destruct F' as [-> ->].
    repeat split. apply build_raises. reflexivity. }
  right.
  destruct (menu_columns self word struct pkg info) as [[c1 c2] c3] eqn:C.
  exists (built self word struct pkg info (args_value self struct info)).
  exists c1, c2, c3, (menu_value self c1 c2 c3).
  split; [apply build_returns; exact F|].
  split; [reflexivity|].
  split; [apply menu_run|].
  split; [cbn [built Entry.menu]; now rewrite C|].
  unfold menu_columns, kind_columns, base_menu, col2_field in *.
  destruct (contains "$" word);
    [|destruct (String.eqb struct "package");
      [|destruct (String.eqb struct "argument")]];
    injection C as <- <- <-; cbn [negb andb];
    (split; [apply col_value_fits|]);
    (split; [now rewrite shown_col_value|]);
    (split; [try reflexivity|]);
    try (split; [discriminate | now split]).
  - rewrite shown_col_value. reflexivity.
  - split; [intros _|discriminate].
    split; [apply col_value_fits|]. split; [reflexivity|].
    apply menu_value_length; apply col_value_fits.
Qed.

Lemma menu_columns_narrow (self : Match.t) (word struct info : string) :
  (len self Col1 < MIN_LEN Col1)%Z ->
  exists c2 c3, forall pkg,
      menu_columns self word struct pkg info = ("", c2, c3).
Proof.
  intros H. unfold menu_columns, kind_columns.
  destruct (contains "$" word);
    [|destruct (String.eqb struct "package");
      [|destruct (String.eqb struct "argument")]];
    eexists; eexists; intros pkg; rewrite (col_value_narrow _ _ _ _ H);
    reflexivity.
Qed.

(** C8.  When the width of column 1 is below the minimum of 7: [_col]
    returns the empty text for column 1, whatever the value and with or
    without brackets; and every call of [build] that produces an entry,
    whatever its struct, gives [_menu] an empty column 1, so that the menu
    is column 2, when shown, and column 3, stripped, and is the same for
    every [pkg].  The only call that produces no entry is a function
    without [info]. *)
Theorem narrow_column1_is_omitted (self : Match.t) :
  (Match.len self Col1 < 7)%Z ->
  (forall value brackets, returns (Match._col value Col1 brackets) self "")
  /\ forall word struct pkg info,
      (struct = "function" /\ info = ""
       /\ raises (Match.build word struct pkg info) self IndexError)
      \/ exists e c2 c3,
          returns (Match.build word struct pkg info) self e
          /\ menu_columns self word struct pkg info = ("", c2, c3)
          /\ returns (Match._menu "" c2 c3) self (strip (cell self Col2 c2 ++ c3))
          /\ Entry.menu e = Some (strip (cell self Col2 c2 ++ c3))
          /\ forall pkg', exists e',
                returns (Match.build word struct pkg' info) self e'
                /\ Entry.menu e' = Entry.menu e.
Proof.
  intros H. split.
  { intros value brackets. unfold returns. rewrite col_run.
    now rewrite (col_value_narrow self value Col1 brackets H). }
  intros word struct pkg info.
  destruct (fails struct info) eqn:F.
  { left. apply fails_iff in F as F'. destruct F' as [-> ->].
    repeat split. apply build_raises. reflexivity. }
  right. destruct (menu_columns_narrow self word struct info H) as [c2 [c3 C]].
  exists (built self word struct pkg info (args_value self struct info)), c2, c3.
  split; [apply build_returns; exact F|].
  split; [apply C|].
  split; [unfold returns; rewrite menu_run; reflexivity|].
  split; [cbn [built Entry.menu]; now rewrite C|].
  intros pkg'. eexists. split; [apply build_returns; exact F|].
  cbn [built Entry.menu]. now rewrite !C.
Qed.

Lemma narrow_column1_is_omitted_witness :
  (Match.len (Match.mk 5 11) Col1 < 7)%Z
  /\ (forall value brackets,
         returns (Match._col value Col1 brackets) (Match.mk 5 11) "")
  /\ forall word struct pkg info,
      (struct = "function" /\ info = ""
       /\ raises (Match.build word struct pkg info) (Match.mk 5 11) IndexError)
      \/ exists e c2 c3,
          returns (Match.build word struct pkg info) (Match.mk 5 11) e
          /\ menu_columns (Match.mk 5 11) word struct pkg info = ("", c2, c3)
          /\ returns (Match._menu "" c2 c3) (Match.mk 5 11)
                     (strip (cell (Match.mk 5 11) Col2 c2 ++ c3))
          /\ Entry.menu e = Some (strip (cell (Match.mk 5 11) Col2 c2 ++ c3))
          /\ forall pkg', exists e',
                returns (Match.build word struct pkg' info) (Match.mk 5 11) e'
                /\ Entry.menu e' = Entry.menu e.
Proof.
  split; [reflexivity|].
  apply (narrow_column1_is_omitted (Match.mk 5 11)). reflexivity.
Defined.

Example narrow_column1_mean :
  exists e,
    returns (Match.build "mean" "function" "base" ("x" ++ String tab "..."))
            (Match.mk 5 11) e
    /\ Entry.menu e = Some "function".
Proof. eexists. split; reflexivity. Qed.

Example wide_column1_mean :
  exists e,
    returns (Match.build "mean" "function" "base" ("x" ++ String tab "..."))
            Match.__init__ e
    /\ Entry.menu e = Some "{base}     function".
Proof. eexists. split; reflexivity. Qed.

(** ** Further properties of the code *)

(** *** Outcomes of [build] *)

(** X1.  At widths that [str.format] accepts, [build] returns an entry
    for every input other than a function without [info], and raises
    [IndexError] for that one; it raises no [KeyError] (every key it
    reads is present), no [ValueError] (a column is only formatted at a
    width of 6 or more) and no [RecursionError] (the entries of the
    arguments call [build] no further). *)
Theorem build_outcome (self : Match.t) (word struct pkg info : string) :
  formattable self ->
  ((struct = "function" /\ info = "")
   <-> raises (Match.build word struct pkg info) self IndexError)
  /\ (~ (struct = "function" /\ info = "")
      <-> exists e, returns (Match.build word struct pkg info) self e)
  /\ (forall e', raises (Match.build word struct pkg info) self e' ->
                 e' = IndexError).
Proof.
  intros _.
  unfold raises, returns. rewrite build_run. unfold build_result.
  rewrite <- fails_iff. destruct (fails struct info) eqn:F.
  - split; [split; auto|].
    split; [split; [intros N; now contradiction N | intros [e H]; discriminate]|].
    intros e' H. now injection H.
  - split; [split; [discriminate | intros H; discriminate]|].
    split; [split; [intros _; now eexists | intros _; discriminate]|].
    intros e' H. discriminate.
Qed.

Lemma build_outcome_witness :
  formattable Match.__init__
  /\ (("numeric" = "function" /\ "" = "")
      <-> raises (Match.build "x" "numeric" "base" "") Match.__init__ IndexError)
  /\ (~ ("numeric" = "function" /\ "" = "")
      <-> exists e, returns (Match.build "x" "numeric" "base" "") Match.__init__ e)
  /\ (forall e', raises (Match.build "x" "numeric" "base" "") Match.__init__ e' ->
                 e' = IndexError).
Proof.
  assert (F : formattable Match.__init__) by (split; cbn; lia).
  split; [exact F|].
  exact (build_outcome Match.__init__ "x" "numeric" "base" "" F).
Defined.

(** X2.  The keys of an entry that [build] returns: [info] and [title]
    are absent and [menu] is present; [struct] and [pkg] are the
    arguments, and so is [word] unless the entry is an argument; [args]
    is present for a function only; [snippet] is present for a function,
    a data frame, a tibble, a package and an argument, and absent for
    every other struct. *)
Theorem entry_keys (self : Match.t) (word struct pkg info : string) (e : Entry.t) :
  returns (Match.build word struct pkg info) self e ->
  Entry.info e = None /\ Entry.title e = None
  /\ Entry.menu e <> None
  /\ Entry.struct e = struct /\ Entry.pkg e = pkg
  /\ (struct <> "argument" -> Entry.word e = word)
  /\ (Entry.args e <> None <-> struct = "function")
  /\ (Entry.snippet e <> None
      <-> struct = "function" \/ struct = "data.frame" \/ struct = "tbl_df"
          \/ struct = "package" \/ struct = "argument").
Proof.
  unfold returns. rewrite build_run. unfold build_result.
  destruct (fails struct info); [discriminate|]. intros H. injection H as <-.
  cbn [built Entry.info Entry.title Entry.menu Entry.struct Entry.pkg
       Entry.word Entry.args Entry.snippet].
  unfold word_value, args_value, snippet_value.
  split; [reflexivity|]. split; [reflexivity|]. split; [discriminate|].
  split; [reflexivity|]. split; [reflexivity|].
  split.
  { intros N. apply String.eqb_neq in N. now rewrite N. }
  destruct (String.eqb_spec struct "function") as [->|Nf].
  { split; split; auto; discriminate. }
  split; [split; [congruence | intros; contradiction]|].
  destruct (String.eqb_spec struct "data.frame") as [->|Nd].
  { split; auto; discriminate. }
  destruct (String.eqb_spec struct "tbl_df") as [->|Nt].
  { split; auto; discriminate. }
  cbn [orb].
  destruct (String.eqb_spec struct "package") as [->|Np].
  { split; auto; discriminate. }
  destruct (String.eqb_spec struct "argument") as [->|Na].
  { split; auto 6; discriminate. }
  split; [congruence|]. intuition congruence.
Qed.

Lemma entry_keys_witness :
  exists e,
    returns (Match.build "x" "numeric" "base" "") Match.__init__ e
    /\ Entry.info e = None /\ Entry.title e = None
    /\ Entry.menu e <> None
    /\ Entry.struct e = "numeric" /\ Entry.pkg e = "base"
    /\ ("numeric" <> "argument" -> Entry.word e = "x")
    /\ (Entry.args e <> None <-> "numeric" = "function")
    /\ (Entry.snippet e <> None
        <-> "numeric" = "function" \/ "numeric" = "data.frame"
            \/ "numeric" = "tbl_df" \/ "numeric" = "package"
            \/ "numeric" = "argument").
Proof.
  eexists. split; [reflexivity|].
  apply (entry_keys Match.__init__ "x" "numeric" "base" ""). reflexivity.
Defined.

(** *** The two readers of lines *)

(** X3.  At widths that [str.format] accepts, [from_pkg_desc] raises
    on no input and leaves the widths as they are: it returns one entry
    for each line with two fields or more between tabs, in the order of
    the lines, which is the entry that [build] returns for the first
    field as word, struct [package], an empty [pkg] and the second field
    as [info]; the other fields and the shorter lines are dropped. *)
Theorem from_pkg_desc_entries (self : Match.t) (lines : list string) :
  formattable self ->
  exists es,
    returns (Matches.from_pkg_desc lines) self es
    /\ Forall2 (fun line e =>
                  returns (Match.build (nth 0 (split tab line) "") "package" ""
                                       (nth 1 (split tab line) "")) self e
                  /\ Entry.struct e = "package")
               (filter (fun line => (2 <=? List.length (split tab line))%nat) lines)
               es
    /\ (List.length es <= List.length lines)%nat.
Proof.
  intros _.
  exists (map (pkg_line_entry self) (filter pkg_qualifies lines)).
  split; [apply from_pkg_desc_returns|]. split.
  - fold pkg_qualifies. induction (filter pkg_qualifies lines) as [|l ls IH];
      constructor; [|exact IH].
    split; [apply build_returns|]; reflexivity.
  - rewrite length_map. apply filter_length_le.
Qed.

Lemma from_pkg_desc_entries_witness :
  let lines := ["dplyr" ++ String tab "A Grammar of Data Manipulation";
                "no description";
                "stats" ++ String tab ("The R Stats Package" ++ String tab "more")] in
  formattable Match.__init__
  /\ exists es,
    returns (Matches.from_pkg_desc lines) Match.__init__ es
    /\ Forall2 (fun line e =>
                  returns (Match.build (nth 0 (split tab line) "") "package" ""
                                       (nth 1 (split tab line) "")) Match.__init__ e
                  /\ Entry.struct e = "package")
               (filter (fun line => (2 <=? List.length (split tab line))%nat) lines)
               es
    /\ (List.length es <= List.length lines)%nat.
Proof.
  cbv zeta.
  assert (F : formattable Match.__init__) by (split; cbn; lia).
  split; [exact F|].
  exact (from_pkg_desc_entries Match.__init__ _ F).
Defined.

Lemma from_omnils_fails_acc (self : Match.t) (lines : list string) (acc : list Entry.t) :
  existsb line_fails (filter qualifies lines) = true ->
  raises (for_fold lines acc (fun line matches =>
      let parts := split x06 line in
      if (5 <=? List.length parts)%nat then
        p0 <- lift (index parts 0) ;;
        p1 <- lift (index parts 1) ;;
        p3 <- lift (index parts 3) ;;
        p4 <- lift (index parts 4) ;;
        e <- Match.build p0 p1 p3 p4 ;;
        ret (matches ++ [e])%list
      else ret matches)) self IndexError.
Proof.
  revert acc. induction lines as [|line lines IH]; intros acc H; [discriminate|].
  unfold raises. cbn [for_fold filter] in *.
  destruct (qualifies line) eqn:Q.
  - rewrite from_omnils_step by exact Q. cbn [existsb] in H.
    destruct (line_fails line) eqn:F.
    + apply bind_raises. apply build_raises. exact F.
    + rewrite (bind_returns _ _ _ _ (build_returns self _ _ _ _ F)).
      apply IH. exact H.
  - unfold qualifies in Q. cbv zeta. rewrite Q. run. now apply IH.
Qed.

(** X4.  At widths that [str.format] accepts, [from_omnils] returns
    if and only if no line with five fields
    or more is a function (field 1) with an empty [info] (field 4), and
    raises [IndexError] otherwise: one such line loses the entries of
    all the lines. *)
Theorem from_omnils_outcome (self : Match.t) (lines : list string) :
  formattable self ->
  let bad line :=
    (5 <=? List.length (split x06 line))%nat
    && String.eqb (nth 1 (split x06 line) "") "function"
    && negb (truthy (nth 4 (split x06 line) "")) in
  (existsb bad lines = false
   <-> exists es, returns (Matches.from_omnils lines) self es)
  /\ (existsb bad lines = true
      <-> raises (Matches.from_omnils lines) self IndexError).
Proof.
  intros _. cbv zeta.
  assert (E : existsb (fun line =>
                (5 <=? List.length (split x06 line))%nat
                && String.eqb (nth 1 (split x06 line) "") "function"
                && negb (truthy (nth 4 (split x06 line) ""))) lines
              = existsb line_fails (filter qualifies lines)).
  { induction lines as [|l ls IH]; [reflexivity|]. cbn [existsb filter].
    rewrite IH. destruct (qualifies l) eqn:Q; unfold qualifies in Q; rewrite Q;
      cbn [andb orb existsb]; [|reflexivity].
    unfold line_fails, fails, field. reflexivity. }
  rewrite E. clear E.
  destruct (existsb line_fails (filter qualifies lines)) eqn:X.
  - pose proof (from_omnils_fails_acc self lines [] X) as R.
    change (raises (Matches.from_omnils lines) self IndexError) in R.
    split; split; auto; try discriminate.
    intros [es H]. unfold returns in H. unfold raises in R.
    rewrite R in H. discriminate.
  - assert (F : forallb (fun line => negb (line_fails line))
                        (filter qualifies lines) = true).
    { induction (filter qualifies lines) as [|l ls IH]; [reflexivity|].
      cbn [existsb forallb] in *. apply orb_false_elim in X as [X1 X2].
      rewrite X1. cbn. now apply IH. }
    pose proof (from_omnils_returns self lines F) as R.
    split; split; auto; try discriminate.
    + intros _. eexists. exact R.
    + intros H. unfold returns in R. unfold raises in H. rewrite R in H.
      discriminate.
Qed.

Lemma from_omnils_outcome_witness :
  let lines :=
    ["mean" ++ String x06 ("function" ++ String x06 (String x06
        ("base" ++ String x06 "x")));
     "f" ++ String x06 ("function" ++ String x06 (String x06
        ("base" ++ String x06 "")))] in
  let bad line :=
    (5 <=? List.length (split x06 line))%nat
    && String.eqb (nth 1 (split x06 line) "") "function"
    && negb (truthy (nth 4 (split x06 line) "")) in
  formattable Match.__init__
  /\ existsb bad lines = true
  /\ (existsb bad lines = false
      <-> exists es, returns (Matches.from_omnils lines) Match.__init__ es)
  /\ (existsb bad lines = true
      <-> raises (Matches.from_omnils lines) Match.__init__ IndexError).
Proof.
  cbv zeta.
  assert (F : formattable Match.__init__) by (split; cbn; lia).
  split; [exact F|]. split; [reflexivity|].
  exact (from_omnils_outcome Match.__init__ _ F).
Defined.

Lemma from_omnils_returns_inv (self : Match.t) (lines : list string) (es : list Entry.t) :
  returns (Matches.from_omnils lines) self es ->
  forallb (fun line => negb (line_fails line)) (filter qualifies lines) = true
  /\ es = map (line_entry self) (filter qualifies lines).
Proof.
  intros H.
  destruct (forallb (fun line => negb (line_fails line)) (filter qualifies lines))
    eqn:F.
  - split; [reflexivity|]. pose proof (from_omnils_returns self lines F) as R.
    unfold returns in *. rewrite R in H. now injection H.
  - assert (X : existsb line_fails (filter qualifies lines) = true).
    { induction (filter qualifies lines) as [|l ls IH]; [discriminate|].
      cbn [existsb forallb] in *. destruct (line_fails l); [reflexivity|].
      cbn in *. now apply IH. }
    pose proof (from_omnils_fails_acc self lines [] X) as R.
    change (raises (Matches.from_omnils lines) self IndexError) in R.
    unfold returns, raises in *. rewrite R in H. discriminate.
Qed.

(** X5.  The entries that [from_omnils] returns are, in the order of the
    lines, the entries that [build] returns for the lines with five
    fields or more between 0x06, with field 0 as word, field 1 as struct,
    field 3 as pkg and field 4 as info; field 2, the fields after field 4
    and the shorter lines have no part in them. *)
Theorem from_omnils_entries (self : Match.t) (lines : list string)
        (es : list Entry.t) :
  returns (Matches.from_omnils lines) self es ->
  Forall2 (fun line e =>
             returns (Match.build (nth 0 (split x06 line) "")
                                  (nth 1 (split x06 line) "")
                                  (nth 3 (split x06 line) "")
                                  (nth 4 (split x06 line) "")) self e)
          (filter (fun line => (5 <=? List.length (split x06 line))%nat) lines)
          es
  /\ (List.length es <= List.length lines)%nat.
Proof.
  intros H. apply from_omnils_returns_inv in H as [F ->]. split.
  - fold qualifies. induction (filter qualifies lines) as [|l ls IH];
      constructor.
    + cbn [forallb] in F. apply andb_prop in F as [F1 _].
      apply negb_true_iff in F1. apply build_returns. exact F1.
    + apply IH. cbn [forallb] in F. now apply andb_prop in F as [_ F2].
  - rewrite length_map. apply filter_length_le.
Qed.

Lemma from_omnils_entries_witness :
  let lines :=
    ["mean" ++ String x06 ("function" ++ String x06 (String x06
        ("base" ++ String x06 "x")));
     "short" ++ String x06 "line";
     "iris" ++ String x06 ("data.frame" ++ String x06 ("unused" ++ String x06
        ("datasets" ++ String x06 (String x06 "more"))))] in
  exists es,
    returns (Matches.from_omnils lines) Match.__init__ es
    /\ map Entry.word es = ["mean"; "iris"]
    /\ Forall2 (fun line e =>
             returns (Match.build (nth 0 (split x06 line) "")
                                  (nth 1 (split x06 line) "")
                                  (nth 3 (split x06 line) "")
                                  (nth 4 (split x06 line) "")) Match.__init__ e)
          (filter (fun line => (5 <=? List.length (split x06 line))%nat) lines)
          es
    /\ (List.length es <= List.length lines)%nat.
Proof.
  cbv zeta. eexists. split; [reflexivity|]. split; [reflexivity|].
  apply (from_omnils_entries Match.__init__). reflexivity.
Defined.

(** X6.  [from_omnils] works line by line: it returns on two lists of
    lines one after the other exactly when it returns on each, and then
    with the entries of the first followed by those of the second. *)
Theorem from_omnils_app (self : Match.t) (lines1 lines2 : list string)
        (es : list Entry.t) :
  returns (Matches.from_omnils (lines1 ++ lines2)%list) self es
  <-> exists es1 es2,
      returns (Matches.from_omnils lines1) self es1
      /\ returns (Matches.from_omnils lines2) self es2
      /\ es = (es1 ++ es2)%list.
Proof.
  split.
  - intros H. apply from_omnils_returns_inv in H as [F ->].
    rewrite filter_app, forallb_app in F. apply andb_prop in F as [F1 F2].
    exists (map (line_entry self) (filter qualifies lines1)).
    exists (map (line_entry self) (filter qualifies lines2)).
    split; [now apply from_omnils_returns|].
    split; [now apply from_omnils_returns|].
    now rewrite filter_app, map_app.
  - intros [es1 [es2 [H1 [H2 ->]]]].
    apply from_omnils_returns_inv in H1 as [F1 ->].
    apply from_omnils_returns_inv in H2 as [F2 ->].
    rewrite <- map_app, <- filter_app. apply from_omnils_returns.
    rewrite filter_app, forallb_app, F1, F2. reflexivity.
Qed.

(** *** Columns and the layout of the menu *)

Lemma take_prefix (n : nat) (s : string) :
  exists dropped,
    s = take n s ++ dropped
    /\ String.length (take n s) = Nat.min n (String.length s).
Proof.
  revert s. induction n as [|n IH]; intros s.
  - exists s. now destruct s.
  - destruct s as [|c s]; [now exists ""|].
    destruct (IH s) as [d [H1 H2]]. exists d. cbn [take append String.length].
    split; [now rewrite <- H1 | now rewrite H2].
Qed.

(** X7.  [_col] returns the empty text when the width of its column is
    below 7; otherwise it keeps the first characters of the value, as
    many as the width less one allows (less three within brackets), all
    of them when the value is that short, and puts the brackets around
    what it keeps. *)
Theorem col_keeps_prefix (self : Match.t) (value : string) (col_nb : Col)
        (brackets : bool) :
  ((Match.len self col_nb < 7)%Z ->
   returns (Match._col value col_nb brackets) self "")
  /\ ((7 <= Match.len self col_nb)%Z ->
      exists kept dropped,
        value = kept ++ dropped
        /\ Z.of_nat (String.length kept)
           = Z.min (Z.of_nat (String.length value))
                   (Match.len self col_nb - (if brackets then 3 else 1))
        /\ returns (Match._col value col_nb brackets) self
                   (if brackets then "{" ++ kept ++ "}" else kept)).
Proof.
  split.
  - intros H. unfold returns. rewrite col_run.
    now rewrite (col_value_narrow self value col_nb brackets H).
  - intros H. unfold returns. rewrite col_run. unfold col_value, MIN_LEN.
    destruct (Match.len self col_nb <? 7)%Z eqn:E; [apply Z.ltb_lt in E; lia|].
    unfold slice_to.
    destruct brackets.
    + destruct (Match.len self col_nb - 3 <? 0)%Z eqn:E'; [apply Z.ltb_lt in E'; lia|].
      destruct (take_prefix (Z.to_nat (Match.len self col_nb - 3)) value)
        as [d [H1 H2]].
      eexists. exists d. split; [exact H1|]. split; [|reflexivity]. lia.
    + destruct (Match.len self col_nb - 1 <? 0)%Z eqn:E'; [apply Z.ltb_lt in E'; lia|].
      destruct (take_prefix (Z.to_nat (Match.len self col_nb - 1)) value)
        as [d [H1 H2]].
      eexists. exists d. split; [exact H1|]. split; [|reflexivity]. lia.
Qed.

Lemma lstrip_head (c : ascii) (r : string) :
  is_space c = false -> lstrip (String c r) = String c r.
Proof. intros H. cbn [lstrip]. now rewrite H. Qed.

Lemma lstrip_fixed (s : string) :
  lstrip s = s -> s = "" \/ exists c r, s = String c r /\ is_space c = false.
Proof.
  destruct s as [|c r]; [now left|]. intros H. right. exists c, r.
  split; [reflexivity|]. cbn [lstrip] in H.
  destruct (is_space c); [|reflexivity].
  pose proof (lstrip_length r) as L. rewrite H in L. cbn in L. lia.
Qed.

Lemma lstrip_idem (s : string) : lstrip (lstrip s) = lstrip s.
Proof.
  induction s as [|c r IH]; [reflexivity|]. cbn [lstrip].
  destruct (is_space c) eqn:E; [exact IH|]. now apply lstrip_head.
Qed.

Lemma rstrip_idem (s : string) : rstrip (rstrip s) = rstrip s.
Proof.
  induction s as [|c r IH]; [reflexivity|]. cbn [rstrip].
  destruct (rstrip r) as [|a r'] eqn:E.
  - destruct (is_space c) eqn:S; [reflexivity|]. cbn [rstrip]. now rewrite S.
  - change (rstrip (String c (String a r'))) with
      (match rstrip (String a r') with
       | "" => if is_space c then "" else String c ""
       | r'' => String c r''
       end).
    now rewrite IH.
Qed.

Lemma rstrip_app (s t : string) :
  rstrip t <> "" -> rstrip (s ++ t) = s ++ rstrip t.
Proof.
  intros H. induction s as [|c s IH]; [reflexivity|].
  cbn [append rstrip]. rewrite IH.
  destruct (s ++ rstrip t) eqn:E; [|reflexivity].
  destruct s; [cbn in E; congruence | discriminate].
Qed.

Lemma rstrip_app_blank (s t : string) :
  rstrip t = "" -> rstrip (s ++ t) = rstrip s.
Proof.
  intros H. induction s as [|c s IH]; [exact H|].
  cbn [append rstrip]. now rewrite IH.
Qed.

Lemma rstrip_spaces (n : nat) : rstrip (spaces n ++ " ") = "".
Proof.
  induction n as [|n IH]; [reflexivity|].
  cbn [spaces append rstrip]. now rewrite IH.
Qed.

Lemma rstrip_head (s : string) : lstrip s = s -> lstrip (rstrip s) = rstrip s.
Proof.
  intros H. destruct (lstrip_fixed s H) as [->|[c [r [-> S]]]]; [reflexivity|].
  cbn [rstrip]. destruct (rstrip r); rewrite ?S; now apply lstrip_head.
Qed.

Lemma strip_idem (s : string) : strip (strip s) = strip s.
Proof.
  unfold strip. rewrite (rstrip_head (lstrip s) (lstrip_idem s)).
  apply rstrip_idem.
Qed.

(** A text without whitespace at its two ends stays as it is. *)
Lemma strip_app_clean (a t : string) :
  lstrip a = a -> a <> "" -> rstrip t = t -> t <> "" -> strip (a ++ t) = a ++ t.
Proof.
  intros Ha Na Ht Nt.
  destruct (lstrip_fixed a Ha) as [->|[c [r [-> S]]]]; [congruence|].
  unfold strip. cbn [append]. rewrite (lstrip_head c (r ++ t) S).
  change (String c (r ++ t)) with (String c r ++ t).
  rewrite rstrip_app by congruence. now rewrite Ht.
Qed.

(** X8.  The layout of a full menu.  With both widths at 7 or more, a
    word without dollar, a struct that is not empty and neither [package]
    nor [argument], and an [info] with a title that is not blank, the menu
    is the package in brackets padded to the width of column 1, the
    struct padded to the width of column 2, and the stripped title: the
    struct begins at the offset [col1_len] and the title at the offset
    [col1_len + col2_len], whatever the package and the struct. *)
Theorem menu_layout (self : Match.t) (word struct pkg info title : string) :
  (7 <= Match.len self Col1)%Z ->
  (7 <= Match.len self Col2)%Z ->
  contains "$" word = false ->
  struct <> "" -> struct <> "package" -> struct <> "argument" ->
  search_title info = Some title ->
  strip title <> "" ->
  exists e f1 f2,
    returns (Match.build word struct pkg info) self e
    /\ format_col (Match.len self Col1 - 1)
                  ("{" ++ slice_to pkg (Match.len self Col1 - 3) ++ "}") = Ok f1
    /\ format_col (Match.len self Col2 - 1)
                  (slice_to struct (Match.len self Col2 - 1)) = Ok f2
    /\ Entry.menu e = Some (f1 ++ f2 ++ strip title)
    /\ Z.of_nat (String.length f1) = Match.len self Col1
    /\ Z.of_nat (String.length f2) = Match.len self Col2.
Proof.
  intros L1 L2 D Ne Np Na T Nt.
  assert (I : truthy info = true) by (destruct info; [discriminate | reflexivity]).
  assert (C1 : col_value self pkg Col1 true
               = "{" ++ slice_to pkg (Match.len self Col1 - 3) ++ "}").
  { unfold col_value, MIN_LEN.
    destruct (len self Col1 <? 7)%Z eqn:E; [apply Z.ltb_lt in E; lia | reflexivity]. }
  assert (C2 : col_value self struct Col2 false
               = slice_to struct (Match.len self Col2 - 1)).
  { unfold col_value, MIN_LEN.
    destruct (len self Col2 <? 7)%Z eqn:E; [apply Z.ltb_lt in E; lia | reflexivity]. }
  assert (S1 : shown self Col1 (col_value self pkg Col1 true) = true).
  { rewrite shown_col_value. unfold MIN_LEN. apply Z.leb_le in L1. now rewrite L1. }
  assert (S2 : shown self Col2 (col_value self struct Col2 false) = true).
  { rewrite shown_col_value. unfold MIN_LEN. apply Z.leb_le in L2. rewrite L2.
    apply truthy_true in Ne. now rewrite Ne. }
  exists (built self word struct pkg info (args_value self struct info)).
  exists (cell self Col1 (col_value self pkg Col1 true)).
  exists (cell self Col2 (col_value self struct Col2 false)).
  split.
  { apply build_returns. unfold fails. rewrite I. now rewrite andb_false_r. }
  split; [rewrite <- C1; now apply format_col_run|].
  split; [rewrite <- C2; now apply format_col_run|].
  split.
  - cbn [built Entry.menu]. unfold menu_columns, kind_columns. rewrite D.
    apply String.eqb_neq in Np, Na. rewrite Np, Na. cbn [menu_of].
    unfold title_of. rewrite I, T. unfold menu_value.
    assert (T2 : truthy (col_value self struct Col2 false) = true).
    { unfold shown in S2. now apply andb_prop in S2 as [S2 _]. }
    rewrite T2. cbn [negb andb]. rewrite andb_false_r.
    rewrite <- append_assoc. f_equal.
    assert (Hc : exists r, cell self Col1 (col_value self pkg Col1 true)
                           = String "{" r).
    { unfold cell. rewrite S1, C1. cbn [append]. now eexists. }
    destruct Hc as [r Hc]. rewrite Hc. apply strip_app_clean.
    + cbn [append]. now apply lstrip_head.
    + discriminate.
    + unfold strip. apply rstrip_idem.
    + exact Nt.
  - split; rewrite cell_length by apply col_value_fits; unfold room;
      [now rewrite S1 | now rewrite S2].
Qed.

Lemma menu_layout_witness :
  let info := "x" ++ String x08 (" Arithmetic Mean " ++ String x05 "") in
  (7 <= Match.len Match.__init__ Col1)%Z
  /\ (7 <= Match.len Match.__init__ Col2)%Z
  /\ contains "$" "mean" = false
  /\ "function" <> "" /\ "function" <> "package" /\ "function" <> "argument"
  /\ search_title info = Some " Arithmetic Mean "
  /\ strip " Arithmetic Mean " <> ""
  /\ exists e f1 f2,
    returns (Match.build "mean" "function" "base" info) Match.__init__ e
    /\ format_col (Match.len Match.__init__ Col1 - 1)
                  ("{" ++ slice_to "base" (Match.len Match.__init__ Col1 - 3) ++ "}")
       = Ok f1
    /\ format_col (Match.len Match.__init__ Col2 - 1)
                  (slice_to "function" (Match.len Match.__init__ Col2 - 1)) = Ok f2
    /\ Entry.menu e = Some (f1 ++ f2 ++ strip " Arithmetic Mean ")
    /\ Z.of_nat (String.length f1) = Match.len Match.__init__ Col1
    /\ Z.of_nat (String.length f2) = Match.len Match.__init__ Col2.
Proof.
  cbv zeta.
  split; [cbn; lia|]. split; [cbn; lia|]. split; [reflexivity|].
  split; [discriminate|]. split; [discriminate|]. split; [discriminate|].
  split; [reflexivity|]. split; [discriminate|].
  apply (menu_layout Match.__init__ "mean" "function" "base"
           ("x" ++ String x08 (" Arithmetic Mean " ++ String x05 ""))
           " Arithmetic Mean ");
    try reflexivity; try discriminate; cbn; lia.
Defined.

(** *** The arguments and the title in [info] *)

Lemma contains_char_app (c : ascii) (a b : string) :
  contains (String c "") (a ++ b)
  = contains (String c "") a || contains (String c "") b.
Proof.
  induction a as [|x a IH].
  - cbn [append]. destruct b; reflexivity.
  - cbn [append]. rewrite !contains_char_cons, IH. now rewrite orb_assoc.
Qed.

Lemma before_first_app (c : ascii) (a d : string) :
  contains (String c "") a = false -> before_first c (a ++ String c d) = a.
Proof.
  induction a as [|x a IH]; intros H.
  - cbn. now rewrite Ascii.eqb_refl.
  - rewrite contains_char_cons in H. apply orb_false_elim in H as [H1 H2].
    cbn [append before_first]. rewrite Ascii.eqb_sym, H1. now rewrite IH.
Qed.

(** X9.  The arguments of a function are read from the text before the
    first 0x08 alone: whatever follows it, the documentation, changes
    neither the arguments nor the snippet.  The arguments are the pieces
    of that text between tabs, one more than there are tabs, with every
    0x07 replaced by an equals sign between two spaces. *)
Theorem documentation_has_no_part (word args_text doc : string) :
  args_text <> "" ->
  contains (String x08 "") args_text = false ->
  exists f f',
    Function.__init__ word args_text = Ok f
    /\ Function.__init__ word (args_text ++ String x08 doc) = Ok f'
    /\ Function.args f' = Function.args f
    /\ Function.snippet f' = Function.snippet f
    /\ Function.args f = map (replace x07 " = ") (split tab args_text)
    /\ List.length (Function.args f) = S (count tab args_text).
Proof.
  intros N H. apply truthy_true in N as T.
  assert (T' : truthy (args_text ++ String x08 doc) = true)
    by (destruct args_text; [discriminate | reflexivity]).
  rewrite !init_run, T, T'. unfold args_of.
  rewrite (before_first_app _ _ doc H), (before_first_absent _ _ H).
  eexists. eexists. split; [reflexivity|]. split; [reflexivity|].
  cbn [Function.args Function.snippet]. repeat split.
  now rewrite length_map, split_length.
Qed.

Lemma documentation_has_no_part_witness :
  let args_text := "x" ++ String tab ("na.rm" ++ String x07 "FALSE") in
  args_text <> ""
  /\ contains (String x08 "") args_text = false
  /\ exists f f',
    Function.__init__ "mean" args_text = Ok f
    /\ Function.__init__ "mean" (args_text ++ String x08 "Arithmetic Mean") = Ok f'
    /\ Function.args f' = Function.args f
    /\ Function.snippet f' = Function.snippet f
    /\ Function.args f = map (replace x07 " = ") (split tab args_text)
    /\ List.length (Function.args f) = S (count tab args_text).
Proof.
  cbv zeta. split; [discriminate|]. split; [reflexivity|].
  apply (documentation_has_no_part "mean"
           ("x" ++ String tab ("na.rm" ++ String x07 "FALSE")) "Arithmetic Mean");
    [discriminate | reflexivity].
Defined.

(** X10.  When the first argument is [NO_ARGS] the snippet is the word
    and an empty pair of parentheses, whatever the arguments after it. *)
Theorem no_args_first (word info : string) (f : Function.t) :
  Function.__init__ word info = Ok f ->
  hd "" (Function.args f) = "NO_ARGS" ->
  Function.snippet f = word ++ "()".
Proof.
  rewrite init_run. destruct (truthy info); [|discriminate].
  intros H. injection H as <-. cbn [Function.args Function.snippet].
  intros E. unfold snippet_of. now rewrite E.
Qed.

Lemma no_args_first_witness :
  let f := Function.mk "f" ("NO_ARGS" ++ String tab "x") ["NO_ARGS"; "x"] "f()" in
  Function.__init__ "f" ("NO_ARGS" ++ String tab "x") = Ok f
  /\ hd "" (Function.args f) = "NO_ARGS"
  /\ Function.snippet f = "f" ++ "()".
Proof.
  cbv zeta. split; [reflexivity|]. split; [reflexivity|].
  apply (no_args_first "f" ("NO_ARGS" ++ String tab "x")); reflexivity.
Defined.

Lemma line_prefix_free (s : string) :
  contains (String newline "") s = false -> line_prefix s = s.
Proof.
  induction s as [|a s IH]; [reflexivity|]. rewrite contains_char_cons.
  intros H. apply orb_false_elim in H as [H1 H2].
  cbn [line_prefix]. rewrite Ascii.eqb_sym, H1. now rewrite IH.
Qed.

Lemma before_last_free (c : ascii) (s : string) :
  contains (String c "") s = false -> before_last c s = None.
Proof.
  induction s as [|a s IH]; [reflexivity|]. rewrite contains_char_cons.
  intros H. apply orb_false_elim in H as [H1 H2].
  cbn [before_last]. rewrite (IH H2). now rewrite Ascii.eqb_sym, H1.
Qed.

Lemma before_last_app (c : ascii) (t r : string) :
  contains (String c "") r = false -> before_last c (t ++ String c r) = Some t.
Proof.
  intros H. induction t as [|a t IH].
  - cbn [append before_last]. rewrite (before_last_free c r H).
    now rewrite Ascii.eqb_refl.
  - cbn [append before_last]. now rewrite IH.
Qed.

Lemma search_title_app (a t : string) :
  contains (String x08 "") a = false ->
  contains (String newline "") t = false ->
  search_title (a ++ String x08 (t ++ String x05 "")) = Some t.
Proof.
  intros Ha Ht. induction a as [|x a IH].
  - cbn [append search_title]. rewrite Ascii.eqb_refl.
    rewrite line_prefix_free.
    + now rewrite before_last_app.
    + rewrite contains_char_app, Ht. reflexivity.
  - rewrite contains_char_cons in Ha. apply orb_false_elim in Ha as [H1 H2].
    cbn [append search_title]. rewrite Ascii.eqb_sym, H1. now apply IH.
Qed.

(** X11.  The title is read back from [info]: for an [info] made of a
    text without 0x08, a 0x08, a title without newline, and a 0x05, a
    build whose menu is the base menu (no dollar in the word, struct
    neither [package] nor [argument]) has the stripped title as the third
    column of its menu, even where the title itself holds a 0x05. *)
Theorem title_is_third_column (self : Match.t)
        (word struct pkg args_text title : string) :
  contains (String x08 "") args_text = false ->
  contains (String newline "") title = false ->
  contains "$" word = false ->
  struct <> "package" -> struct <> "argument" ->
  exists e c1 c2 m,
    returns (Match.build word struct pkg
               (args_text ++ String x08 (title ++ String x05 ""))) self e
    /\ returns (Match._col pkg Col1 true) self c1
    /\ returns (Match._col struct Col2 false) self c2
    /\ returns (Match._menu c1 c2 (strip title)) self m
    /\ Entry.menu e = Some m.
Proof.
  intros Ha Ht D Np Na.
  assert (I : truthy (args_text ++ String x08 (title ++ String x05 "")) = true)
    by (destruct args_text; reflexivity).
  eexists. eexists. eexists. eexists.
  split; [apply build_returns; unfold fails; rewrite I; now rewrite andb_false_r|].
  split; [apply col_run|]. split; [apply col_run|]. split; [apply menu_run|].
  cbn [built Entry.menu]. unfold menu_columns, kind_columns. rewrite D.
  apply String.eqb_neq in Np, Na. rewrite Np, Na. cbn [menu_of].
  unfold title_of. rewrite I, (search_title_app _ _ Ha Ht). reflexivity.
Qed.

Lemma title_is_third_column_witness :
  contains (String x08 "") ("x" ++ String tab "...") = false
  /\ contains (String newline "") " Arithmetic Mean" = false
  /\ contains "$" "mean" = false
  /\ "function" <> "package" /\ "function" <> "argument"
  /\ exists e c1 c2 m,
    returns (Match.build "mean" "function" "base"
               (("x" ++ String tab "...")
                ++ String x08 (" Arithmetic Mean" ++ String x05 "")))
            Match.__init__ e
    /\ returns (Match._col "base" Col1 true) Match.__init__ c1
    /\ returns (Match._col "function" Col2 false) Match.__init__ c2
    /\ returns (Match._menu c1 c2 (strip " Arithmetic Mean")) Match.__init__ m
    /\ Entry.menu e = Some m.
Proof.
  split; [reflexivity|]. split; [reflexivity|]. split; [reflexivity|].
  split; [discriminate|]. split; [discriminate|].
  apply (title_is_third_column Match.__init__ "mean" "function" "base"
           ("x" ++ String tab "...") " Arithmetic Mean");
    try reflexivity; discriminate.
Defined.

(** *** The entry of an argument *)

Lemma replace_free (c : ascii) (by_ s : string) :
  contains (String c "") s = false -> replace c by_ s = s.
Proof.
  induction s as [|a s IH]; [reflexivity|]. rewrite contains_char_cons.
  intros H. apply orb_false_elim in H as [H1 H2].
  cbn [replace]. rewrite Ascii.eqb_sym, H1. now rewrite IH.
Qed.

Lemma replace_app_sep (c : ascii) (by_ a d : string) :
  contains (String c "") a = false ->
  replace c by_ (a ++ String c d) = a ++ by_ ++ replace c by_ d.
Proof.
  induction a as [|x a IH]; intros H.
  - cbn. now rewrite Ascii.eqb_refl.
  - rewrite contains_char_cons in H. apply orb_false_elim in H as [H1 H2].
    cbn [append replace]. rewrite Ascii.eqb_sym, H1. now rewrite IH.
Qed.

Lemma split_free (c : ascii) (s : string) :
  contains (String c "") s = false -> split c s = [s].
Proof.
  induction s as [|a s IH]; [reflexivity|]. rewrite contains_char_cons.
  intros H. apply orb_false_elim in H as [H1 H2].
  cbn [split]. rewrite Ascii.eqb_sym, H1. now rewrite IH.
Qed.

Lemma split_app_sep (c : ascii) (a b : string) :
  contains (String c "") a = false ->
  split c (a ++ String c b) = a :: split c b.
Proof.
  induction a as [|x a IH]; intros H.
  - cbn. now rewrite Ascii.eqb_refl.
  - rewrite contains_char_cons in H. apply orb_false_elim in H as [H1 H2].
    cbn [append split]. rewrite Ascii.eqb_sym, H1. now rewrite IH.
Qed.

Lemma lstrip_app_space (s : string) :
  lstrip (s ++ " ") = match lstrip s with "" => "" | u => u ++ " " end.
Proof.
  induction s as [|c s IH]; [reflexivity|]. cbn [append lstrip].
  destruct (is_space c); [exact IH | reflexivity].
Qed.

Lemma strip_app_space (s : string) : strip (s ++ " ") = strip s.
Proof.
  unfold strip. rewrite lstrip_app_space.
  destruct (lstrip s) as [|c u]; [reflexivity|].
  now apply rstrip_app_blank.
Qed.

(** The token of an argument [name 0x07 default], and its two sides. *)
Lemma argument_token (name default : string) :
  contains (String x07 "") name = false ->
  contains (String x07 "") default = false ->
  contains "=" name = false ->
  contains "=" default = false ->
  replace x07 " = " (name ++ String x07 default) = name ++ " = " ++ default
  /\ arg_lhs (name ++ " = " ++ default) = strip name
  /\ arg_rhs (name ++ " = " ++ default) = strip default.
Proof.
  intros H1 H2 H3 H4.
  assert (E : name ++ " = " ++ default = (name ++ " ") ++ String "=" (" " ++ default))
    by (now rewrite append_assoc).
  assert (F : contains "=" (name ++ " ") = false)
    by (rewrite contains_char_app, H3; reflexivity).
  split; [rewrite replace_app_sep by exact H1; now rewrite (replace_free _ _ _ H2)|].
  unfold arg_lhs, arg_rhs. rewrite E.
  rewrite (before_first_app _ _ _ F), (split_app_sep _ _ _ F).
  rewrite split_free by (rewrite contains_char_app, H4; reflexivity).
  split; [apply strip_app_space | reflexivity].
Qed.

(** X12.  An argument written [name 0x07 default] in [info], with no
    [=] and no other 0x07 in its two sides, a default that is not blank
    and not between double quotes: its token is [name = default]; its
    entry has the stripped name as word and the snippet
    [name = ${1:default}] with the stripped default; and, where the name
    and the default hold no dollar, the menu is made of the label
    [argument] and of [= default]. *)
Theorem argument_with_default (self : Match.t) (name default : string) :
  contains (String x07 "") name = false ->
  contains (String x07 "") default = false ->
  contains "=" name = false ->
  contains "=" default = false ->
  strip default <> "" ->
  search_quotes (strip default) = None ->
  exists e,
    returns (Match.build (replace x07 " = " (name ++ String x07 default))
                         "argument" "" "") self e
    /\ Entry.word e = strip name
    /\ Entry.snippet e = Some (strip name ++ " = ${1:" ++ strip default ++ "}")
    /\ (contains "$" name = false -> contains "$" default = false ->
        exists c1 m,
          returns (Match._col "argument" Col1 false) self c1
          /\ returns (Match._menu c1 ("= " ++ strip default) "") self m
          /\ Entry.menu e = Some m).
Proof.
  intros H1 H2 H3 H4 N Q.
  destruct (argument_token name default H1 H2 H3 H4) as [-> [L R]].
  apply truthy_true in N as T.
  eexists. split; [apply build_returns; reflexivity|].
  cbn [built Entry.word Entry.snippet Entry.menu].
  unfold word_value, snippet_value, argument_snippet.
  cbn [String.eqb Ascii.eqb Bool.eqb andb orb]. rewrite L, R, T, Q.
  split; [reflexivity|]. split; [reflexivity|].
  intros D1 D2. eexists. eexists.
  split; [apply col_run|]. split; [apply menu_run|].
  unfold menu_columns, kind_columns.
  assert (D : contains "$" (name ++ " = " ++ default) = false).
  { rewrite !contains_char_app, D1, D2. reflexivity. }
  rewrite D. cbn [String.eqb Ascii.eqb Bool.eqb andb orb]. rewrite R, T.
  reflexivity.
Qed.

Lemma argument_with_default_witness :
  contains (String x07 "") "na.rm" = false
  /\ contains (String x07 "") "FALSE" = false
  /\ contains "=" "na.rm" = false
  /\ contains "=" "FALSE" = false
  /\ strip "FALSE" <> ""
  /\ search_quotes (strip "FALSE") = None
  /\ exists e,
    returns (Match.build (replace x07 " = " ("na.rm" ++ String x07 "FALSE"))
                         "argument" "" "") Match.__init__ e
    /\ Entry.word e = strip "na.rm"
    /\ Entry.snippet e = Some (strip "na.rm" ++ " = ${1:" ++ strip "FALSE" ++ "}")
    /\ (contains "$" "na.rm" = false -> contains "$" "FALSE" = false ->
        exists c1 m,
          returns (Match._col "argument" Col1 false) Match.__init__ c1
          /\ returns (Match._menu c1 ("= " ++ strip "FALSE") "") Match.__init__ m
          /\ Entry.menu e = Some m).
Proof.
  split; [reflexivity|]. split; [reflexivity|]. split; [reflexivity|].
  split; [reflexivity|]. split; [discriminate|]. split; [reflexivity|].
  apply (argument_with_default Match.__init__ "na.rm" "FALSE");
    try reflexivity; discriminate.
Defined.

Lemma quoted_run (inner : string) :
  contains (String newline "") inner = false ->
  search_quotes (String dquote (inner ++ String dquote "")) = Some inner.
Proof.
  intros H. unfold search_quotes, quoted. rewrite Ascii.eqb_refl.
  rewrite before_last_app by reflexivity.
  rewrite String.eqb_refl, H. reflexivity.
Qed.

(** X13.  An argument whose default is a text between double quotes
    (the text without newline, the name without [=]): the entry has the
    stripped name as word, and the snippet puts the placeholder inside
    the quotes, [name = "${1:text}"], also where the text itself holds
    double quotes. *)
Theorem argument_with_quoted_default (self : Match.t) (name inner pkg info : string) :
  contains "=" name = false ->
  contains "=" inner = false ->
  contains (String newline "") inner = false ->
  exists e,
    returns (Match.build (name ++ " = " ++ String dquote (inner ++ String dquote ""))
                         "argument" pkg info) self e
    /\ Entry.word e = strip name
    /\ Entry.snippet e
       = Some (strip name ++ " = "
               ++ String dquote ("${1:" ++ inner ++ "}" ++ String dquote "")).
Proof.
  intros H1 H2 H3.
  assert (E : name ++ " = " ++ String dquote (inner ++ String dquote "")
              = (name ++ " ")
                ++ String "=" (" " ++ String dquote (inner ++ String dquote "")))
    by (now rewrite append_assoc).
  assert (F : contains "=" (name ++ " ") = false)
    by (rewrite contains_char_app, H1; reflexivity).
  assert (G : contains "=" (" " ++ String dquote (inner ++ String dquote "")) = false).
  { cbn [append]. rewrite !contains_char_cons, contains_char_app, H2. reflexivity. }
  assert (S : strip (" " ++ String dquote (inner ++ String dquote ""))
              = String dquote (inner ++ String dquote "")).
  { change (" " ++ String dquote (inner ++ String dquote ""))
      with (String " " (String dquote inner ++ String dquote "")).
    unfold strip. cbn [lstrip]. change (is_space " ") with true. cbv iota.
    replace (lstrip (String dquote inner ++ String dquote ""))
      with (String dquote inner ++ String dquote "") by reflexivity.
    now rewrite rstrip_app by discriminate. }
  eexists. split; [apply build_returns; reflexivity|].
  cbn [built Entry.word Entry.snippet].
  unfold word_value, snippet_value, argument_snippet, arg_lhs, arg_rhs.
  cbn [String.eqb Ascii.eqb Bool.eqb andb orb]. rewrite E.
  rewrite (before_first_app _ _ _ F), (split_app_sep _ _ _ F), (split_free _ _ G).
  rewrite S, strip_app_space. cbn [truthy]. rewrite (quoted_run inner H3).
  split; reflexivity.
Qed.

Lemma argument_with_quoted_default_witness :
  contains "=" "sep" = false
  /\ contains "=" ", " = false
  /\ contains (String newline "") ", " = false
  /\ exists e,
    returns (Match.build ("sep" ++ " = " ++ String dquote (", " ++ String dquote ""))
                         "argument" "" "") Match.__init__ e
    /\ Entry.word e = strip "sep"
    /\ Entry.snippet e
       = Some (strip "sep" ++ " = "
               ++ String dquote ("${1:" ++ ", " ++ "}" ++ String dquote "")).
Proof.
  split; [reflexivity|]. split; [reflexivity|]. split; [reflexivity|].
  apply (argument_with_quoted_default Match.__init__ "sep" ", " "" "");
    reflexivity.
Defined.

(** *** More on the menu *)

Lemma take_label_clean (n : nat) (label : string) :
  label = "variable" \/ label = "package" \/ label = "argument" ->
  lstrip (take n label) = take n label /\ rstrip (take n label) = take n label.
Proof.
  intros [-> | [-> | ->]];
    do 9 (destruct n as [|n]; [split; reflexivity|]); split; reflexivity.
Qed.

(** Column 1 of a menu has no whitespace at its two ends, and is shown
    unless it is empty. *)
Lemma column1_clean (self : Match.t) (value : string) (brackets : bool) :
  brackets = true \/ value = "variable" \/ value = "package" \/ value = "argument" ->
  let c1 := col_value self value Col1 brackets in
  lstrip c1 = c1 /\ rstrip c1 = c1 /\ (c1 = "" \/ shown self Col1 c1 = true).
Proof.
  intros H. cbv zeta.
  assert (S : col_value self value Col1 brackets = ""
              \/ shown self Col1 (col_value self value Col1 brackets) = true).
  { rewrite shown_col_value. unfold col_value.
    destruct (len self Col1 <? MIN_LEN Col1)%Z eqn:E; [now left|]. right.
    apply Z.ltb_ge in E. apply Z.leb_le in E. rewrite E.
    destruct H as [->|[-> | [-> | ->]]]; [reflexivity| | |];
      destruct brackets; reflexivity. }
  split; [|split; [|exact S]]; unfold col_value;
    destruct (len self Col1 <? MIN_LEN Col1)%Z eqn:E; try reflexivity;
    apply Z.ltb_ge in E; unfold MIN_LEN in E.
  - destruct brackets; [reflexivity|]. destruct H as [H|H]; [discriminate|].
    unfold slice_to.
    destruct (len self Col1 - 1 <? 0)%Z eqn:E'; [apply Z.ltb_lt in E'; lia|].
    now apply take_label_clean.
  - destruct brackets.
    + change ("{" ++ slice_to value (len self Col1 - 3) ++ "}")
        with (String "{" (slice_to value (len self Col1 - 3)) ++ "}").
      now rewrite rstrip_app by discriminate.
    + destruct H as [H|H]; [discriminate|]. unfold slice_to.
      destruct (len self Col1 - 1 <? 0)%Z eqn:E'; [apply Z.ltb_lt in E'; lia|].
      now apply take_label_clean.
Qed.

Lemma menu_columns_col1 (self : Match.t) (word struct pkg info : string) :
  exists value brackets,
    fst (fst (menu_columns self word struct pkg info))
    = col_value self value Col1 brackets
    /\ (brackets = true \/ value = "variable" \/ value = "package"
        \/ value = "argument").
Proof.
  unfold menu_columns, kind_columns.
  destruct (contains "$" word);
    [|destruct (String.eqb struct "package");
      [|destruct (String.eqb struct "argument")]];
    eexists; eexists; (split; [reflexivity|]); auto.
Qed.

(** X14.  The menu of every entry that [build] returns has no
    whitespace at its two ends: stripping it changes nothing. *)
Theorem menu_is_stripped (self : Match.t) (word struct pkg info : string)
        (e : Entry.t) :
  returns (Match.build word struct pkg info) self e ->
  exists m, Entry.menu e = Some m /\ strip m = m.
Proof.
  unfold returns. rewrite build_run. unfold build_result.
  destruct (fails struct info); [discriminate|]. intros H. injection H as <-.
  eexists. split; [reflexivity|].
  destruct (menu_columns_col1 self word struct pkg info) as [v [b [E H]]].
  destruct (menu_columns self word struct pkg info) as [[c1 c2] c3].
  cbn [fst] in E. subst c1. cbn [menu_of]. unfold menu_value.
  destruct (truthy (col_value self v Col1 b) && negb (truthy c2)
            && negb (truthy c3)).
  - destruct (column1_clean self v b H) as [L [R _]].
    unfold strip. now rewrite L, R.
  - apply strip_idem.
Qed.

Lemma menu_is_stripped_witness :
  exists e,
    returns (Match.build "x" "" "base" "") Match.__init__ e
    /\ exists m, Entry.menu e = Some m /\ strip m = m.
Proof.
  eexists. split; [reflexivity|].
  apply (menu_is_stripped Match.__init__ "x" "" "base" ""). reflexivity.
Defined.

(** With a column 2 that is not shown, the menu is the menu of an empty
    column 2. *)
Lemma menu_value_hidden_col2 (self : Match.t) (c1 c2 c3 : string) :
  shown self Col2 c2 = false ->
  lstrip c1 = c1 -> rstrip c1 = c1 -> (c1 = "" \/ shown self Col1 c1 = true) ->
  menu_value self c1 c2 c3 = menu_value self c1 "" c3.
Proof.
  intros S2 L R S1.
  assert (C2 : cell self Col2 c2 = "") by (unfold cell; now rewrite S2).
  assert (C0 : cell self Col2 "" = "") by reflexivity.
  unfold menu_value. rewrite C2, C0. cbn [append truthy negb].
  rewrite andb_true_r.
  destruct (truthy c2); cbn [negb]; [|now rewrite andb_true_r].
  rewrite andb_false_r. cbn [andb].
  destruct (truthy c1) eqn:T1; [|reflexivity].
  destruct (truthy c3) eqn:T3; [reflexivity|]. cbn [negb andb].
  apply truthy_false in T3. subst c3. rewrite append_nil_r.
  destruct S1 as [S1|S1]; [subst c1; discriminate|].
  unfold cell. rewrite S1. unfold strip.
  destruct (lstrip_fixed _ L) as [N|[c [r [E Sp]]]]; [subst c1; discriminate|].
  subst c1. cbn [append]. rewrite (lstrip_head _ _ Sp).
  change (String c (r ++ spaces (Z.to_nat (len self Col1 - 1)
                                 - String.length (String c r)) ++ " "))
    with (String c r ++ spaces (Z.to_nat (len self Col1 - 1)
                                - String.length (String c r)) ++ " ").
  rewrite rstrip_app_blank by apply rstrip_spaces. exact R.
Qed.

(** X15.  When the width of column 2 is below 7, no entry shows a
    column 2: the menu is the value of [_menu] for the same column 1, an
    empty column 2 and the same column 3.  The description of a package
    is then absent from its menu, which is the label [package] as [_col]
    cuts it, whatever the [info]. *)
Theorem narrow_column2_is_omitted (self : Match.t) :
  (Match.len self Col2 < 7)%Z ->
  (forall word struct pkg info e,
      returns (Match.build word struct pkg info) self e ->
      exists c1 c2 c3 m,
        menu_columns self word struct pkg info = (c1, c2, c3)
        /\ returns (Match._menu c1 "" c3) self m
        /\ Entry.menu e = Some m)
  /\ (forall word pkg info,
         contains "$" word = false ->
         exists e c1,
           returns (Match.build word "package" pkg info) self e
           /\ returns (Match._col "package" Col1 false) self c1
           /\ Entry.menu e = Some c1).
Proof.
  intros N.
  assert (G : forall word struct pkg info,
             menu_of self (menu_columns self word struct pkg info)
             = menu_value self (fst (fst (menu_columns self word struct pkg info)))
                 "" (snd (menu_columns self word struct pkg info))).
  { intros word struct pkg info.
    destruct (menu_columns_col1 self word struct pkg info) as [v [b [E H]]].
    destruct (menu_columns self word struct pkg info) as [[c1 c2] c3].
    cbn [fst snd] in *. subst c1. cbn [menu_of].
    destruct (column1_clean self v b H) as [L [R S]].
    apply menu_value_hidden_col2; auto.
    unfold shown, MIN_LEN.
    destruct (7 <=? len self Col2)%Z eqn:E; [apply Z.leb_le in E; lia|].
    now rewrite andb_false_r. }
  split.
  - intros word struct pkg info e. unfold returns. rewrite build_run.
    unfold build_result. destruct (fails struct info); [discriminate|].
    intros H. injection H as <-. cbn [built Entry.menu]. rewrite G.
    destruct (menu_columns self word struct pkg info) as [[c1 c2] c3].
    cbn [fst snd]. exists c1, c2, c3. eexists.
    split; [reflexivity|]. split; [apply menu_run | reflexivity].
  - intros word pkg info D. eexists. eexists.
    split; [apply build_returns; reflexivity|]. split; [apply col_run|].
    cbn [built Entry.menu]. rewrite G. unfold menu_columns, kind_columns.
    rewrite D. cbn [String.eqb Ascii.eqb Bool.eqb andb fst snd].
    unfold menu_value. cbn [truthy negb]. rewrite !andb_true_r.
    destruct (col_value self "package" Col1 false); reflexivity.
Qed.

Lemma narrow_column2_is_omitted_witness :
  (Match.len (Match.mk 11 6) Col2 < 7)%Z
  /\ (forall word struct pkg info e,
      returns (Match.build word struct pkg info) (Match.mk 11 6) e ->
      exists c1 c2 c3 m,
        menu_columns (Match.mk 11 6) word struct pkg info = (c1, c2, c3)
        /\ returns (Match._menu c1 "" c3) (Match.mk 11 6) m
        /\ Entry.menu e = Some m)
  /\ (forall word pkg info,
         contains "$" word = false ->
         exists e c1,
           returns (Match.build word "package" pkg info) (Match.mk 11 6) e
           /\ returns (Match._col "package" Col1 false) (Match.mk 11 6) c1
           /\ Entry.menu e = Some c1).
Proof.
  split; [reflexivity|].
  apply (narrow_column2_is_omitted (Match.mk 11 6)). reflexivity.
Defined.

(** *** Data frames, and the set-up *)

(** X16.  A data frame or a tibble gets the pipe snippet, the word
    followed by [ %>%$1], keeps its word and has no [args]; without a
    dollar in the word its menu is the base menu, of the package in
    brackets, the struct and the title. *)
Theorem data_frame_entry (self : Match.t) (word struct pkg info : string) :
  struct = "data.frame" \/ struct = "tbl_df" ->
  exists e,
    returns (Match.build word struct pkg info) self e
    /\ Entry.word e = word
    /\ Entry.snippet e = Some (word ++ " %>%$1")
    /\ Entry.args e = None
    /\ (contains "$" word = false ->
        exists c1 c2 m,
          returns (Match._col pkg Col1 true) self c1
          /\ returns (Match._col struct Col2 false) self c2
          /\ returns (Match._menu c1 c2 (title_of info)) self m
          /\ Entry.menu e = Some m).
Proof.
  intros H. eexists.
  split; [apply build_returns; destruct H as [-> | ->]; reflexivity|].
  split; [destruct H as [-> | ->]; reflexivity|].
  split; [destruct H as [-> | ->]; reflexivity|].
  split; [destruct H as [-> | ->]; reflexivity|].
  intros D. eexists. eexists. eexists.
  split; [apply col_run|]. split; [apply col_run|]. split; [apply menu_run|].
  cbn [built Entry.menu]. unfold menu_columns, kind_columns. rewrite D.
  destruct H as [-> | ->]; reflexivity.
Qed.

Lemma data_frame_entry_witness :
  ("data.frame" = "data.frame" \/ "data.frame" = "tbl_df")
  /\ exists e,
    returns (Match.build "iris" "data.frame" "datasets" "") Match.__init__ e
    /\ Entry.word e = "iris"
    /\ Entry.snippet e = Some ("iris" ++ " %>%$1")
    /\ Entry.args e = None
    /\ (contains "$" "iris" = false ->
        exists c1 c2 m,
          returns (Match._col "datasets" Col1 true) Match.__init__ c1
          /\ returns (Match._col "data.frame" Col2 false) Match.__init__ c2
          /\ returns (Match._menu c1 c2 (title_of "")) Match.__init__ m
          /\ Entry.menu e = Some m).
Proof.
  split; [now left|].
  apply (data_frame_entry Match.__init__ "iris" "data.frame" "datasets" "").
  now left.
Defined.


Example setup_half_done :
  Matches.setup (fun key => if String.eqb key "col1_len" then Some 20%Z else None)
                Match.__init__
  = (Raise KeyError, Match.mk 20 11).
Proof. reflexivity. Qed.
